(** * dcase-2020 baseline: the caption decoder and the training orchestrator

    A shallow embedding of [processes/method.py]: the functions
    [_decode_outputs] and [_do_training], the Python primitives they call
    (list indexing, [list.index], [str.split], [str.join], [pathlib]'s
    [stem]), and the properties of the two functions.

    Python exceptions are a result type; Python [dict]s with string keys are
    [gmap string string]; Python [float]s are binary64 primitive floats;
    [torch] and the epoch runner, which live outside the file, are the
    variables of a section. *)

From Stdlib Require Import Floats.PrimFloat Ascii String.
From Corelib Require Import Floats.FloatAxioms Floats.SpecFloat Floats.FloatOps.
From stdpp Require Import gmap strings list pretty sorting.

Set Default Proof Using "Type".
(* Decimal literals are rounded to the nearest binary64, as Python's are. *)
Set Warnings "-inexact-float".
Local Open Scope string_scope.
Local Open Scope list_scope.
Set Warnings "-clear-no-such-hyp,-abstract-large-number".

(** ** Exceptions *)

Inductive PyError : Set :=
  | IndexError
  | ValueError
  | KeyError
  | TypeError
  | ZeroDivisionError
  | FileNotFoundError
  | RuntimeError.

Inductive Result (A : Type) : Type :=
  | Ok (a : A)
  | Err (e : PyError).
Arguments Ok {A} a.
Arguments Err {A} e.

#[global] Instance PyError_eq_dec : EqDecision PyError.
Proof. solve_decision. Defined.

#[global] Instance Result_ret : MRet Result := @Ok.
#[global] Instance Result_bind : MBind Result := λ A B f r,
  match r with
  | Ok a => f a
  | Err e => Err e
  end.

(** [try: r except ValueError: pass], where [dflt] is the value the variable
    assigned in [r] had before the [try]. *)
Definition except_ValueError_pass {A} (r : Result A) (dflt : A) : Result A :=
  match r with
  | Err ValueError => Ok dflt
  | _ => r
  end.

(** A list comprehension [[f x for x in l]]: the first exception ends it. *)
Fixpoint comprehension {A B} (f : A → Result B) (l : list A) : Result (list B) :=
  match l with
  | [] => Ok []
  | x :: l' => y ← f x; ys ← comprehension f l'; Ok (y :: ys)
  end.

(** ** Python primitives *)

Module Py.

(** [l[i]] on a list: a negative index counts from the end. *)
Definition getitem {A} (l : list A) (i : Z) : Result A :=
  let n := Z.of_nat (length l) in
  let j := if (i <? 0)%Z then (n + i)%Z else i in
  if ((j <? 0) || (n <=? j))%Z then Err IndexError
  else match l !! Z.to_nat j with
       | Some x => Ok x
       | None => Err IndexError
       end.

(** [l.index(x)]: the first position of [x], [ValueError] without one. *)
Fixpoint index (x : string) (l : list string) : Result nat :=
  match l with
  | [] => Err ValueError
  | y :: l' => if bool_decide (y = x) then Ok 0 else n ← index x l'; Ok (S n)
  end.

(** [sep.join(l)]. *)
Definition join (sep : string) (l : list string) : string :=
  String.concat sep l.

(** [s.startswith(p)]. *)
Definition startswith (s p : string) : bool := String.prefix p s.

(** [s.rfind(c)] for a one-character [c]: the last position, or [-1]. *)
Fixpoint rfind_opt (c : ascii) (s : string) : option nat :=
  match s with
  | EmptyString => None
  | String a s' =>
      match rfind_opt c s' with
      | Some i => Some (S i)
      | None => if Ascii.eqb a c then Some 0 else None
      end
  end.

Definition rfind (c : ascii) (s : string) : Z :=
  match rfind_opt c s with
  | Some i => Z.of_nat i
  | None => (-1)%Z
  end.

(** [s.split(c)] for a one-character [c]: never the empty list. *)
Fixpoint split (c : ascii) (s : string) : list string :=
  match s with
  | EmptyString => [EmptyString]
  | String a s' =>
      if Ascii.eqb a c then EmptyString :: split c s'
      else match split c s' with
           | w :: ws => String a w :: ws
           | [] => [String a EmptyString]
           end
  end.

(** [l[:n]] on a list, [n] an [int]. *)
Definition slice_to {A} (n : Z) (l : list A) : list A :=
  if (n <? 0)%Z then take (Z.to_nat (Z.of_nat (length l) + n)) l
  else take (Z.to_nat n) l.

(** [zip(a, b, c)]: as long as the shortest. *)
Fixpoint zip3 {A B C} (a : list A) (b : list B) (c : list C) : list (A * B * C) :=
  match a, b, c with
  | x :: a', y :: b', z :: c' => (x, y, z) :: zip3 a' b' c'
  | _, _, _ => []
  end.

(** [f'{n:05d}'] for [n] a non-negative [int]. *)
Definition fmt_05d (n : nat) : string :=
  let s := pretty n in
  String.concat "" (replicate (5 - String.length s) "0") +:+ s.

End Py.

(** ** pathlib *)

Module pathlib.

(** A pure path: its root (empty for a relative path) and its components. *)
Record Path : Type := mkPath { root : string; parts : list string }.

(** [p.name]: the final component. *)
Definition name (p : Path) : string := List.last (parts p) "".

(** [p.stem]: the final component without its last suffix. *)
Definition stem (p : Path) : string :=
  let nm := name p in
  let i := Py.rfind "." nm in
  if ((0 <? i) && (i <? Z.of_nat (String.length nm) - 1))%Z
  then String.substring 0 (Z.to_nat i) nm
  else nm.

(** [p.joinpath(n)] for a relative one-component [n]. *)
Definition joinpath (p : Path) (n : string) : Path :=
  mkPath (root p) (parts p ++ [n]).

(** [str(p)]. *)
Definition str (p : Path) : string :=
  match root p, parts p with
  | EmptyString, [] => "."
  | r, ps => r +:+ String.concat "/" ps
  end.

End pathlib.
Import pathlib.

(** ** The caption decoder *)

(** A caption record: a [dict] from field names to strings. *)
Abbreviation Record_ := (gmap string string).

(** [d.keys()]. *)
Definition keys (d : Record_) : list string := (map_to_list d).*1.

(** The three lists the loop of [_decode_outputs] updates. *)
Record DecodeState : Type := mkDecodeState {
  captions_pred : list Record_;
  captions_gt : list Record_;
  f_names : list string
}.

(** What one item contributes: its file key and its two captions. *)
Record Decoded : Type := mkDecoded {
  d_key : string;
  d_predicted : string;
  d_gt : string
}.

(** Lines 72-76: the ground truth is cut at its first end-of-sequence token,
    which has to be there; the prediction is cut when it has one. *)
Definition truncate_gt (eos_token : string) (gt_caption : list string)
    : Result (list string) :=
  i ← Py.index eos_token gt_caption; Ok (take i gt_caption).

Definition truncate_predicted (eos_token : string) (predicted_caption : list string)
    : Result (list string) :=
  except_ValueError_pass
    (i ← Py.index eos_token predicted_caption; Ok (take i predicted_caption))
    predicted_caption.

(** Line 81: [f_name.stem.split('.')[0]]; [split] never returns the empty
    list, so the subscript cannot fail. *)
Definition file_key (f_name : Path) : string :=
  match Py.split "." (stem f_name) with
  | w :: _ => w
  | [] => ""
  end.

(** Lines 92-97: the first ground-truth record of the file gets one more
    numbered caption. *)
Definition caption_field (n : nat) : string := "caption_" +:+ pretty n.

Fixpoint add_reference (f_n gt_caption : string) (gt : list Record_)
    : Result (list Record_) :=
  match gt with
  | [] => Ok []
  | d :: rest =>
      match d !! "file_name" with
      | None => Err KeyError
      | Some n =>
          if bool_decide (f_n = n) then
            let len_captions :=
              length (filter (λ i_c, Py.startswith i_c "caption_") (keys d)) + 1 in
            Ok (<[caption_field len_captions := gt_caption]> d :: rest)
          else rest' ← add_reference f_n gt_caption rest; Ok (d :: rest')
      end
  end.

(** Lines 83-97. *)
Definition record_item (it : Decoded) (st : DecodeState) : Result DecodeState :=
  let f_n := d_key it in
  if bool_decide (f_n ∉ f_names st) then
    Ok {| f_names := f_names st ++ [f_n];
          captions_pred := captions_pred st ++
            [{[ "file_name" := f_n; "caption_predicted" := d_predicted it ]}];
          captions_gt := captions_gt st ++
            [{[ "file_name" := f_n; "caption_1" := d_gt it ]}] |}
  else
    gt ← add_reference f_n (d_gt it) (captions_gt st);
    Ok {| f_names := f_names st;
          captions_pred := captions_pred st;
          captions_gt := gt |}.

Section Decoder.

(** [torch]: a tensor of class scores, and the class of highest score at
    each of its time steps ([softmax(b, dim=-1).argmax(1)], read with
    [.item()]). *)
Context {Tensor : Type} (argmax_softmax : Tensor → list nat).

(** Lines 67-76, as token lists: (predicted, ground truth). *)
Definition decode_tokens (indices_object : list string) (eos_token : string)
    (gt_words : list Z) (b_predictions : Tensor)
    : Result (list string * list string) :=
  let predicted_words := argmax_softmax b_predictions in
  predicted_caption ←
    comprehension (λ i : nat, Py.getitem indices_object (Z.of_nat i)) predicted_words;
  gt_caption ← comprehension (Py.getitem indices_object) gt_words;
  gt_caption ← truncate_gt eos_token gt_caption;
  predicted_caption ← truncate_predicted eos_token predicted_caption;
  Ok (predicted_caption, gt_caption).

(** Lines 67-81. *)
Definition decode_item (indices_object : list string) (eos_token : string)
    (item : list Z * Tensor * Path) : Result Decoded :=
  let '(gt_words, b_predictions, f_name) := item in
  '(predicted_caption, gt_caption) ←
    decode_tokens indices_object eos_token gt_words b_predictions;
  Ok {| d_predicted := Py.join " " predicted_caption;
        d_gt := Py.join " " gt_caption;
        d_key := file_key f_name |}.

(** The [for] loop of lines 65-106 (the log lines apart, which change
    nothing that is returned). *)
Fixpoint decode_loop (indices_object : list string) (eos_token : string)
    (items : list (list Z * Tensor * Path)) (st : DecodeState)
    : Result DecodeState :=
  match items with
  | [] => Ok st
  | item :: items' =>
      it ← decode_item indices_object eos_token item;
      st' ← record_item it st;
      decode_loop indices_object eos_token items' st'
  end.

Definition _decode_outputs (predicted_outputs : list Tensor)
    (ground_truth_outputs : list (list Z)) (indices_object : list string)
    (file_names : list Path) (eos_token : string) (print_to_console : bool)
    : Result (list Record_ * list Record_) :=
  st ← decode_loop indices_object eos_token
         (Py.zip3 ground_truth_outputs predicted_outputs file_names)
         {| captions_pred := []; captions_gt := []; f_names := [] |};
  Ok (captions_pred st, captions_gt st).

End Decoder.

(** A tensor given by its arg-max classes, for running the decoder. *)
Definition classes_tensor : Type := list nat.
Definition classes_argmax : classes_tensor → list nat := id.

Definition vocab : list string := ["<sos>"; "<eos>"; "a"; "dog"; "barks"; "bird"; "sings"].
Definition wav (n : string) : Path := mkPath "" ["data"; "clotho_dataset_eva"; n].

(** Three items, the first and the last of the same file. *)
Definition ex_predicted : list classes_tensor :=
  [[0; 2; 3; 1]; [0; 5; 6; 6]; [0; 2; 3; 4; 1]].
Definition ex_ground_truth : list (list Z) :=
  [[0; 2; 3; 4; 1; 1]; [0; 2; 5; 6; 1]; [0; 3; 4; 1]]%Z.
Definition ex_files : list Path := [wav "a.wav"; wav "b.wav"; wav "a.wav"].

(** What the decoder returns for them. *)
Definition ex_captions_pred : list Record_ :=
  [{[ "file_name" := "a"; "caption_predicted" := "<sos> a dog" ]};
   {[ "file_name" := "b"; "caption_predicted" := "<sos> bird sings sings" ]}].
Definition ex_captions_gt : list Record_ :=
  [{[ "file_name" := "a"; "caption_1" := "<sos> a dog barks";
      "caption_2" := "<sos> dog barks" ]};
   {[ "file_name" := "b"; "caption_1" := "<sos> a bird sings" ]}].

(** ** The training orchestrator *)

(** The entries of [settings] that [_do_training] reads; the entries of
    the gradient norm go to the epoch runner as they are, and are part of
    it here. *)
Record Settings : Type := mkSettings {
  nb_epochs : Z;
  patience : Z;
  loss_thr : float;
  text_output_every_nb_epochs : Z;
  nb_examples_to_sample : Z;
  eos_token : string;
  lr : float
}.

Section Training.

Context {Tensor : Type} (argmax_softmax : Tensor → list nat).

(** The parameter state of the model ([model.state_dict()]), the state of
    the optimizer, and the state of [torch]'s random generator. *)
Context {Params Optimizer Rng : Type}.

(** What [module_epoch_passing] returns. *)
Record EpochOutput : Type := mkEpochOutput {
  objective_output : Tensor;
  output_y_hat : list Tensor;
  output_y : list (list Z);
  epoch_f_names : list Path
}.

(** The collaborators: one pass over the training data, which updates the
    model and the optimizer; the mean of a tensor as a [float]
    ([t.mean().item()]); [Adam(params, lr)]; [randperm(n)]. *)
Context (module_epoch_passing :
           Params → Optimizer → Rng → EpochOutput * Params * Optimizer * Rng)
        (mean_item : Tensor → float)
        (Adam : Params → float → Optimizer)
        (randperm : nat → Rng → list nat * Rng).

(** What [pt_save] writes and [pt_load] reads. *)
Inductive Blob : Type :=
  | ModelState (p : Params)
  | OptimizerState (o : Optimizer).

Inductive Event : Type :=
  | LogGettingData
  | LogDone
  | LogStarting
  | LogEpoch (epoch : nat) (training_loss : float)
  | LogStop (patience_counter : Z)
  | LogTrainingDone
  | Saved (path : string) (b : Blob).

(** The variables of [_do_training] and the world it acts on. *)
Record TrainState : Type := mkTrainState {
  prv_training_loss : float;
  patience_counter : Z;
  best_epoch : nat;
  model : Params;
  optimizer : Optimizer;
  rng : Rng;
  fs : gmap string Blob;
  events : list Event
}.

Definition emit (e : Event) (st : TrainState) : TrainState :=
  mkTrainState (prv_training_loss st) (patience_counter st) (best_epoch st)
    (model st) (optimizer st) (rng st) (fs st) (events st ++ [e]).

Definition pt_save (b : Blob) (path : string) (st : TrainState) : TrainState :=
  mkTrainState (prv_training_loss st) (patience_counter st) (best_epoch st)
    (model st) (optimizer st) (rng st) (<[path := b]> (fs st))
    (events st ++ [Saved path b]).

Definition epoch_file (model_dir : Path) (model_file_name : string) (epoch : nat)
    : string :=
  str (joinpath model_dir ("epoch_" +:+ Py.fmt_05d epoch +:+ "_" +:+ model_file_name)).

Definition latest_file (model_dir : Path) (model_file_name save_str : string)
    : string :=
  str (joinpath model_dir ("latest" +:+ save_str +:+ "_" +:+ model_file_name)).

(** Lines 244-257: every [text_output_every_nb_epochs] epochs some outputs
    are decoded; the captions only go to the log. *)
Definition periodic_decoding (s : Settings) (indices_list : list string)
    (epoch : nat) (out : EpochOutput) (g : Rng) : Result Rng :=
  if (text_output_every_nb_epochs s =? 0)%Z then Err ZeroDivisionError
  else if ((Z.of_nat epoch + 1) `mod` text_output_every_nb_epochs s =? 0)%Z then
    let '(perm, g') := randperm (length (output_y_hat out)) g in
    let sampling_indices :=
      merge_sort Nat.le (Py.slice_to (nb_examples_to_sample s) perm) in
    pairs ← comprehension (λ i : nat,
               y_hat ← Py.getitem (output_y_hat out) (Z.of_nat i);
               y ← Py.getitem (output_y out) (Z.of_nat i);
               Ok (y_hat, y)) sampling_indices;
    file_names ← comprehension (λ i : nat,
               Py.getitem (epoch_f_names out) (Z.of_nat i)) sampling_indices;
    match pairs with
    | [] => Err TypeError
    | _ :: _ =>
        _ ← _decode_outputs argmax_softmax pairs.*1 pairs.*2 indices_list
              file_names (eos_token s) false;
        Ok g'
    end
  else Ok g.

(** Lines 259-276. *)
Definition check_improvement (s : Settings) (model_dir : Path)
    (model_file_name : string) (epoch : nat) (training_loss : float)
    (st : TrainState) : TrainState :=
  if PrimFloat.ltb (loss_thr s) (PrimFloat.sub (prv_training_loss st) training_loss)
  then
    let st := mkTrainState training_loss (patience_counter st) (best_epoch st)
                (model st) (optimizer st) (rng st) (fs st) (events st) in
    let st := mkTrainState (prv_training_loss st) (patience_counter st) epoch
                (model st) (optimizer st) (rng st) (fs st) (events st) in
    let st := pt_save (ModelState (model st))
                (epoch_file model_dir model_file_name (best_epoch st)) st in
    mkTrainState (prv_training_loss st) 0 (best_epoch st)
      (model st) (optimizer st) (rng st) (fs st) (events st)
  else
    mkTrainState (prv_training_loss st) (patience_counter st + 1) (best_epoch st)
      (model st) (optimizer st) (rng st) (fs st) (events st).

(** Lines 279-280. *)
Definition save_latest (model_dir : Path) (model_file_name : string)
    (st : TrainState) : TrainState :=
  let st := pt_save (ModelState (model st))
              (latest_file model_dir model_file_name "") st in
  pt_save (OptimizerState (optimizer st))
    (latest_file model_dir model_file_name "_optimizer") st.

(** Lines 283-286: the notice is logged, and the loop goes on. *)
Definition check_stopping (s : Settings) (st : TrainState) : TrainState :=
  if (patience s <=? patience_counter st)%Z
  then emit (LogStop (patience_counter st)) st
  else st.

(** Lines 222-286: the body of the epoch loop. *)
Definition epoch_body (s : Settings) (model_file_name : string) (model_dir : Path)
    (indices_list : list string) (epoch : nat) (st : TrainState)
    : Result TrainState :=
  let '(epoch_output, m, o, g) :=
    module_epoch_passing (model st) (optimizer st) (rng st) in
  let st := mkTrainState (prv_training_loss st) (patience_counter st)
              (best_epoch st) m o g (fs st) (events st) in
  let training_loss := mean_item (objective_output epoch_output) in
  let st := emit (LogEpoch epoch training_loss) st in
  g ← periodic_decoding s indices_list epoch epoch_output (rng st);
  let st := mkTrainState (prv_training_loss st) (patience_counter st)
              (best_epoch st) (model st) (optimizer st) g (fs st) (events st) in
  let st := check_improvement s model_dir model_file_name epoch training_loss st in
  let st := save_latest model_dir model_file_name st in
  Ok (check_stopping s st).

(** [for epoch in epochs]. *)
Fixpoint epoch_loop (s : Settings) (model_file_name : string) (model_dir : Path)
    (indices_list : list string) (epochs : list nat) (st : TrainState)
    : Result TrainState :=
  match epochs with
  | [] => Ok st
  | epoch :: epochs' =>
      st' ← epoch_body s model_file_name model_dir indices_list epoch st;
      epoch_loop s model_file_name model_dir indices_list epochs' st'
  end.

(** [range(n)]. *)
Definition range (n : Z) : list nat := seq 0 (Z.to_nat n).

(** Line 292: [model.load_state_dict(pt_load(path))]. *)
Definition load_best (path : string) (st : TrainState) : Result TrainState :=
  match fs st !! path with
  | None => Err FileNotFoundError
  | Some (OptimizerState _) => Err RuntimeError
  | Some (ModelState p) =>
      Ok (mkTrainState (prv_training_loss st) (patience_counter st)
            (best_epoch st) p (optimizer st) (rng st) (fs st) (events st))
  end.

(** Lines 191-218: the variables before the first epoch. *)
Definition initial_state (m : Params) (s : Settings) (g : Rng)
    (files : gmap string Blob) : TrainState :=
  mkTrainState 1e8%float 0 0 m (Adam m (lr s)) g files
    [LogGettingData; LogDone; LogStarting].

(** [_do_training], from the model [m], the generator state [g] and the
    files [files] it finds. *)
Definition _do_training (m : Params) (s : Settings) (model_file_name : string)
    (model_dir : Path) (indices_list : list string)
    (g : Rng) (files : gmap string Blob) : Result TrainState :=
  let st := initial_state m s g files in
  st ← epoch_loop s model_file_name model_dir indices_list
         (range (nb_epochs s)) st;
  let st := emit LogTrainingDone st in
  load_best (epoch_file model_dir model_file_name (best_epoch st)) st.

End Training.

(** ** A run of the orchestrator on given losses *)

Module Scenario.

(** A tensor is a loss value or the arg-max classes of a prediction. *)
Inductive toy_tensor : Type :=
  | Scores (classes : list nat)
  | Loss (v : float).

Definition argmax (t : toy_tensor) : list nat :=
  match t with Scores c => c | Loss _ => [] end.

Definition mean (t : toy_tensor) : float :=
  match t with Loss v => v | Scores _ => 0%float end.

Definition losses : list float :=
  [10.0; 9.5; 9.48; 9.47; 9.47; 9.47; 9.47]%float.

(** The parameters are the number of passes made over the data: pass [p]
    has the loss [losses[p]]. *)
Definition epoch_pass (p o : nat) (g : unit)
    : EpochOutput (Tensor := toy_tensor) * nat * nat * unit :=
  (mkEpochOutput (Loss (nth p losses 0%float))
     [Scores [0; 2; 3; 1]] [[0; 2; 3; 4; 1]%Z] [wav "a.wav"], S p, S o, g).

Definition adam (p : nat) (lr : float) : nat := 0.

Definition perm (n : nat) (g : unit) : list nat * unit := (seq 0 n, g).

Definition settings (nb_epochs patience : Z) : Settings :=
  mkSettings nb_epochs patience 0.01%float 2 1 "<eos>" 0.0001%float.

Definition model_dir : Path := mkPath "" ["outputs"; "models"].

Abbreviation run nb_epochs patience :=
  (_do_training argmax epoch_pass mean adam perm 0 (settings nb_epochs patience)
     "model.pt" model_dir vocab tt ∅).

(** The result of the first [n] epochs of a run of seven epochs with
    patience 2. *)
Definition run_epochs (n : nat) : Result (TrainState (Params := nat)) :=
  epoch_loop argmax epoch_pass mean perm (settings 7 2)
    "model.pt" model_dir vocab (seq 0 n)
    (initial_state adam 0 (settings 7 2) tt ∅).

(** The state a result holds; the state before the first epoch when it
    holds none. *)
Definition state_of (r : Result (TrainState (Params := nat)))
    : TrainState (Params := nat) :=
  match r with
  | Ok st => st
  | Err _ => initial_state adam 0 (settings 7 2) tt ∅
  end.

(** A state as the fourth epoch can find it: the loss before is 9.47. *)
Definition before_fourth_epoch : TrainState (Params := nat) :=
  mkTrainState 9.47%float 0 2 3 3 tt ∅ [].

Definition epoch (n : nat) (st : TrainState (Params := nat))
    : Result (TrainState (Params := nat)) :=
  epoch_body argmax epoch_pass mean perm (settings 7 2) "model.pt" model_dir
    vocab n st.

Definition final_state : TrainState (Params := nat) := state_of (run 7 2).

End Scenario.

(** ** What the decoder is to return *)

(** The keys of a list in the order of their first appearance. *)
Fixpoint first_appearance (l : list string) : list string :=
  match l with
  | [] => []
  | x :: l' => x :: filter (λ y, y ≠ x) (first_appearance l')
  end.

(** The position of the first occurrence of [k] in [l], [length l] without one. *)
Fixpoint first_index (k : string) (l : list string) : nat :=
  match l with
  | [] => 0
  | x :: l' => if bool_decide (x = k) then 0 else S (first_index k l')
  end.

(** The decoded items of a file key, in input order. *)
Definition occurrences (k : string) (ds : list Decoded) : list Decoded :=
  filter (λ d, d_key d = k) ds.

Definition references_of (k : string) (ds : list Decoded) : list string :=
  d_gt <$> occurrences k ds.

Definition prediction_of (k : string) (ds : list Decoded) : string :=
  match occurrences k ds with
  | d :: _ => d_predicted d
  | [] => ""
  end.

Definition predicted_record (k p : string) : Record_ :=
  {[ "file_name" := k; "caption_predicted" := p ]}.

(** The fields [caption_n], [caption_(n+1)], ... for the captions [caps]. *)
Fixpoint caption_fields (n : nat) (caps : list string) : Record_ :=
  match caps with
  | [] => ∅
  | c :: caps' => <[caption_field n := c]> (caption_fields (S n) caps')
  end.

Definition gt_record (k : string) (caps : list string) : Record_ :=
  <["file_name" := k]> (caption_fields 1 caps).

Definition decoded_state (ds : list Decoded) : DecodeState :=
  let ks := first_appearance (d_key <$> ds) in
  {| f_names := ks;
     captions_pred := (λ k, predicted_record k (prediction_of k ds)) <$> ks;
     captions_gt := (λ k, gt_record k (references_of k ds)) <$> ks |}.

(** [tokens[i]] is the first end-of-sequence token of [tokens]. *)
Definition first_eos (eos_token : string) (tokens : list string) (i : nat) : Prop :=
  tokens !! i = Some eos_token ∧ ∀ j, j < i → tokens !! j ≠ Some eos_token.

(** A string cut at its first [c]; the whole string without one. *)
Fixpoint truncate_at_first (c : ascii) (s : string) : string :=
  match s with
  | EmptyString => EmptyString
  | String a s' => if Ascii.eqb a c then EmptyString else String a (truncate_at_first c s')
  end.

(** The [pt_save] calls of a log, in order. *)
Fixpoint saves {Params Optimizer : Type}
    (evs : list (Event (Params := Params) (Optimizer := Optimizer)))
    : list (string * Blob (Params := Params) (Optimizer := Optimizer)) :=
  match evs with
  | [] => []
  | Saved path b :: evs' => (path, b) :: saves evs'
  | _ :: evs' => saves evs'
  end.

(** The epochs run ([inl]) and the stop notices with their counter ([inr])
    of a log, in order. *)
Fixpoint progress {Params Optimizer : Type}
    (evs : list (Event (Params := Params) (Optimizer := Optimizer)))
    : list (nat + Z) :=
  match evs with
  | [] => []
  | LogEpoch epoch _ :: evs' => inl epoch :: progress evs'
  | LogStop c :: evs' => inr c :: progress evs'
  | _ :: evs' => progress evs'
  end.

(** A write of a per-epoch checkpoint. *)
Definition is_checkpoint {Params Optimizer : Type} (model_dir : Path)
    (model_file_name : string)
    (e : Event (Params := Params) (Optimizer := Optimizer)) : Prop :=
  ∃ epoch b, e = Saved (epoch_file model_dir model_file_name epoch) b.

(** The last checkpoint of the log, if it has one, is the one of the best
    epoch, written in that epoch, and the file still holds it. *)
Definition best_is_last_checkpoint {Params Optimizer Rng : Type}
    (model_dir : Path) (model_file_name : string)
    (st : TrainState (Params := Params) (Optimizer := Optimizer) (Rng := Rng))
    : Prop :=
  Forall (λ e, ¬ is_checkpoint model_dir model_file_name e) (events st) ∨
  ∃ pre loss p post,
    events st =
      pre ++ LogEpoch (best_epoch st) loss ::
             Saved (epoch_file model_dir model_file_name (best_epoch st))
               (ModelState p) :: post ∧
    Forall (λ e, ¬ is_checkpoint model_dir model_file_name e) post ∧
    fs st !! epoch_file model_dir model_file_name (best_epoch st) =
      Some (ModelState p).

(** The epochs of a log, in order. *)
Fixpoint epochs_run {Params Optimizer : Type}
    (evs : list (Event (Params := Params) (Optimizer := Optimizer))) : list nat :=
  match evs with
  | [] => []
  | LogEpoch epoch _ :: evs' => epoch :: epochs_run evs'
  | _ :: evs' => epochs_run evs'
  end.

(** A value of a result, when there is one. *)
Definition on_result {A B} (f : A → B) (r : Result A) : option B :=
  match r with
  | Ok a => Some (f a)
  | Err _ => None
  end.

(** * The rest of the file: the token table, the evaluation, [method] *)

(** ** pathlib, for any segment *)

Module posix.

(** [s.lstrip('/')]. *)
Fixpoint lstrip_sep (s : string) : string :=
  match s with
  | String a s' => if Ascii.eqb a "/" then lstrip_sep s' else s
  | EmptyString => EmptyString
  end.

(** [splitroot(part)]: the root of a segment and what follows it; two
    leading slashes, and no more, are a root of their own. *)
Definition splitroot (part : string) : string * string :=
  match part with
  | String a _ =>
      if Ascii.eqb a "/" then
        let stripped_part := lstrip_sep part in
        if Nat.eqb (String.length part - String.length stripped_part) 2
        then ("//", stripped_part) else ("/", stripped_part)
      else ("", part)
  | EmptyString => ("", part)
  end.

(** The components of a segment: neither empty nor [.]. *)
Definition components (rel : string) : list string :=
  filter (λ x, x ≠ "" ∧ x ≠ ".") (Py.split "/" rel).

Definition parse_segment (part : string) : Path :=
  let '(r, rel) := splitroot part in mkPath r (components rel).

(** [join_parsed_parts]: a rooted path replaces what is before it. *)
Definition join_parsed_parts (p q : Path) : Path :=
  match root q with
  | EmptyString => mkPath (root p) (parts p ++ parts q)
  | _ => q
  end.

(** [Path(segment, ...)]: the segments, joined from the left. *)
Definition Path_ (segments : list string) : Path :=
  fold_left (λ p part, join_parsed_parts p (parse_segment part)) segments
    (mkPath "" []).

(** [p.joinpath(other)], for any string. *)
Definition joinpath_any (p : Path) (other : string) : Path :=
  join_parsed_parts p (Path_ [other]).

End posix.

(** ** The settings of the data, and the files of the token lists *)

Record FileSettings : Type := mkFileSettings {
  root_dir : string;
  dataset_dir : string;
  baseline_data_dir : string;
  words_list_file_name : string;
  characters_list_file_name : string
}.

Record DataSettings : Type := mkDataSettings {
  output_field_name : string;
  data_files : FileSettings
}.

(** [path.open('rb')] then [pickle.load]: the pickled lists of the file
    system, by path. *)
Definition pickle_load (pickles : gmap string (list string)) (path : Path)
    : Result (list string) :=
  match pickles !! str path with
  | Some obj => Ok obj
  | None => Err FileNotFoundError
  end.

(** Lines 304-306 and 330-332: the list of words or the list of
    characters. *)
Definition list_file_name (d : DataSettings) : string :=
  if Py.startswith (output_field_name d) "words"
  then words_list_file_name (data_files d)
  else characters_list_file_name (data_files d).

Definition _get_nb_output_classes (pickles : gmap string (list string))
    (d : DataSettings) : Result nat :=
  let f_name := list_file_name d in
  let path :=
    posix.Path_ [root_dir (data_files d); dataset_dir (data_files d); f_name] in
  obj ← pickle_load pickles path; Ok (length obj).

Section Loading.

(** [file_io.load_pickle_file], of another file of the repository. *)
Context (load_pickle_file : Path → Result (list string)).

Definition _load_indices_file (d : DataSettings) : Result (list string) :=
  let path :=
    posix.Path_ [root_dir (data_files d); dataset_dir (data_files d)] in
  let p_field := list_file_name d in
  load_pickle_file (posix.joinpath_any path p_field).

End Loading.

(** ** The evaluation *)

Inductive EvalEvent : Type :=
  | LogGettingEvaluationData
  | LogEvaluationDataDone
  | LogStartingEvaluation
  | LogEvaluationDone
  | LogMetric (metric : string) (score : float).

(** Lines 167-168: a line per metric, with [values["score"]]. *)
Fixpoint log_metrics (metrics : list (string * gmap string float))
    : Result (list EvalEvent) :=
  match metrics with
  | [] => Ok []
  | (metric, values) :: metrics' =>
      match values !! "score" with
      | None => Err KeyError
      | Some score =>
          evs ← log_metrics metrics'; Ok (LogMetric metric score :: evs)
      end
  end.

Section Evaluation.

Context {Tensor : Type} (argmax_softmax : Tensor → list nat).
Context {Params Rng : Type}.

(** The collaborators: a pass without objective and optimizer over the
    evaluation data, the entries of a directory in the order the system
    gives them, and the scorer. *)
Context (evaluation_pass :
           Params → Rng → EpochOutput (Tensor := Tensor) * Params * Rng)
        (iterdir : Path → Result (list Path))
        (evaluate_metrics :
           list Record_ → list Record_ →
           Result (list (string * gmap string float))).

(** What an evaluation leaves: the model, the generator and the log. *)
Record Evaluated : Type := mkEvaluated {
  eval_model : Params;
  eval_rng : Rng;
  eval_events : list EvalEvent
}.

Definition _do_evaluation (model : Params) (s : Settings) (d : DataSettings)
    (indices_list : list string) (g : Rng) : Result Evaluated :=
  let data_path_evaluation :=
    posix.Path_ [root_dir (data_files d); baseline_data_dir (data_files d);
                 "clotho_dataset_eva"] in
  let '(evaluation_outputs, model, g) := evaluation_pass model g in
  file_names ← iterdir data_path_evaluation;
  '(captions_pred, captions_gt) ←
    _decode_outputs argmax_softmax (output_y_hat evaluation_outputs)
      (output_y evaluation_outputs) indices_list file_names (eos_token s) false;
  metrics ← evaluate_metrics captions_pred captions_gt;
  lines ← log_metrics metrics;
  Ok (mkEvaluated model g
        ([LogGettingEvaluationData; LogEvaluationDataDone; LogStartingEvaluation;
          LogEvaluationDone] ++ lines)).

End Evaluation.

(** ** [method] *)

Record MethodSettings : Type := mkMethodSettings {
  training : Settings;
  data : DataSettings;
  model_root_dir : string;
  models_dir : string;
  output_file_name : string;
  do_training : bool;
  do_evaluation : bool
}.

Section Method.

Context {Tensor : Type} (argmax_softmax : Tensor → list nat).
Context {Params Optimizer Rng : Type}.
Context (module_epoch_passing :
           Params → Optimizer → Rng →
           EpochOutput (Tensor := Tensor) * Params * Optimizer * Rng)
        (mean_item : Tensor → float)
        (Adam : Params → float → Optimizer)
        (randperm : nat → Rng → list nat * Rng)
        (evaluation_pass :
           Params → Rng → EpochOutput (Tensor := Tensor) * Params * Rng)
        (iterdir : Path → Result (list Path))
        (evaluate_metrics :
           list Record_ → list Record_ →
           Result (list (string * gmap string float)))
        (load_pickle_file : Path → Result (list string))
        (mkdir : Path → Result ())
        (get_model : nat → Rng → Params * Rng).

(** What [method] leaves: the model, the files of the model directory, and
    what the training and the evaluation left, when they were run. *)
Record MethodResult : Type := mkMethodResult {
  result_model : Params;
  result_files : gmap string (Blob (Params := Params) (Optimizer := Optimizer));
  trained : option (TrainState (Params := Params) (Optimizer := Optimizer) (Rng := Rng));
  evaluated : option (Evaluated (Params := Params) (Rng := Rng))
}.

Definition method (s : MethodSettings) (pickles : gmap string (list string))
    (files : gmap string Blob) (g : Rng) : Result MethodResult :=
  let model_dir := posix.Path_ [model_root_dir s; models_dir s] in
  _ ← mkdir model_dir;
  let model_file_name := output_file_name s in
  indices_list ← _load_indices_file load_pickle_file (data s);
  nb_classes ← _get_nb_output_classes pickles (data s);
  let '(net, g) := get_model nb_classes g in
  '(net, files, g, trained) ←
    (if do_training s then
       st ← _do_training argmax_softmax module_epoch_passing mean_item Adam
              randperm net (training s) model_file_name model_dir
              indices_list g files;
       Ok (model st, fs st, rng st, Some st)
     else Ok (net, files, g, None));
  '(net, evaluated) ←
    (if do_evaluation s then
       r ← _do_evaluation argmax_softmax evaluation_pass iterdir evaluate_metrics
             net (training s) (data s) indices_list g;
       Ok (eval_model r, Some r)
     else Ok (net, None));
  Ok (mkMethodResult net files trained evaluated).

End Method.

(** ** Counting the references of a record *)

(** [len([i_c for i_c in d.keys() if i_c.startswith('caption_')])]. *)
Definition caption_count (d : Record_) : nat :=
  length (filter (λ i_c, Py.startswith i_c "caption_") (keys d)).

(** ** A run of the whole of [method] *)

Module Run.

Definition pickles : gmap string (list string) :=
  {[ "data/clotho/words_list.p" := vocab ]}.

Definition data_settings : DataSettings :=
  mkDataSettings "words_ind"
    (mkFileSettings "data" "clotho" "data_splits" "words_list.p"
       "characters_list.p").

Definition evaluation_pass (p : nat) (g : unit)
    : EpochOutput (Tensor := Scenario.toy_tensor) * nat * unit :=
  (mkEpochOutput (Scenario.Loss 0%float) (Scenario.Scores <$> ex_predicted)
     ex_ground_truth [], p, g).

Definition iterdir (p : Path) : Result (list Path) := Ok ex_files.

Definition evaluate_metrics (cp cg : list Record_)
    : Result (list (string * gmap string float)) :=
  Ok [("bleu_1", {[ "score" := 0.5%float ]});
      ("cider", {[ "score" := 1.25%float; "scores" := 0%float ]})].

Definition mkdir (p : Path) : Result () := Ok ().

Definition get_model (nb_classes : nat) (g : unit) : nat * unit := (0, g).

Definition settings (train evaluate : bool) : MethodSettings :=
  mkMethodSettings (Scenario.settings 7 2) data_settings "outputs" "models"
    "model.pt" train evaluate.

Abbreviation run train evaluate :=
  (method Scenario.argmax Scenario.epoch_pass Scenario.mean Scenario.adam
     Scenario.perm evaluation_pass iterdir evaluate_metrics
     (pickle_load pickles) mkdir get_model (settings train evaluate)
     pickles ∅ tt).

Abbreviation evaluate :=
  (_do_evaluation Scenario.argmax evaluation_pass iterdir evaluate_metrics
     0 (Scenario.settings 7 2) data_settings vocab tt).

(** An epoch whose loss is not a number. *)
Definition nan_pass (p o : nat) (g : unit)
    : EpochOutput (Tensor := Scenario.toy_tensor) * nat * nat * unit :=
  (mkEpochOutput (Scenario.Loss nan) [] [] [], S p, S o, g).

Abbreviation nan_epoch :=
  (epoch_body Scenario.argmax nan_pass Scenario.mean Scenario.perm
     (mkSettings 7 2 0.01%float 100 1 "<eos>" 0.0001%float) "model.pt"
     Scenario.model_dir vocab 0
     (initial_state Scenario.adam 0 (Scenario.settings 7 2) tt ∅)).

(** The directory of the models as an earlier run left it. *)
Definition stale_files : gmap string (Blob (Params := nat) (Optimizer := nat)) :=
  {[ "outputs/models/epoch_00000_model.pt" := ModelState 99 ]}.

(** Three epochs whose loss is not a number, in that directory. *)
Abbreviation nan_run :=
  (_do_training Scenario.argmax nan_pass Scenario.mean Scenario.adam
     Scenario.perm 0 (mkSettings 3 2 0.01%float 100 1 "<eos>" 0.0001%float)
     "model.pt" Scenario.model_dir vocab tt stale_files).

End Run.

(** The value a result holds, [d] when it holds none. *)
Definition value_of {A} (d : A) (r : Result A) : A :=
  match r with
  | Ok a => a
  | Err _ => d
  end.

(** * Properties *)

(** ** The file key *)

Lemma split_head (c : ascii) (s : string) :
  ∃ ws, Py.split c s = truncate_at_first c s :: ws.
Proof.
  induction s as [|a s [ws IH]]; simpl; [by eexists|].
  destruct (Ascii.eqb a c); [by eexists|].
  rewrite IH. by eexists.
Qed.

Lemma truncate_before_rfind (c : ascii) (s : string) (i : nat) :
  Py.rfind_opt c s = Some i →
  truncate_at_first c (String.substring 0 i s) = truncate_at_first c s.
Proof.
  revert i. induction s as [|a s IH]; intros i; simpl; [done|].
  destruct (Py.rfind_opt c s) as [j|] eqn:Hj.
  - intros [= <-]. simpl. destruct (Ascii.eqb a c); [done|]. by rewrite IH.
  - destruct (Ascii.eqb a c) eqn:Hac; [|done]. by intros [= <-].
Qed.

Lemma truncate_stem (p : Path) :
  truncate_at_first "." (stem p) = truncate_at_first "." (name p).
Proof.
  unfold stem, Py.rfind.
  destruct (Py.rfind_opt "." (name p)) as [i|] eqn:Hi.
  - case_match; [|done]. rewrite Nat2Z.id. by apply truncate_before_rfind.
  - by case_match.
Qed.

(** C9: the file key of a path is its base name cut at the first dot
    (the whole base name when it has none); [foo.bar.wav] gives [foo]. *)
Theorem file_key_is_base_name_before_first_dot :
  (∀ f_name : Path, file_key f_name = truncate_at_first "." (name f_name)) ∧
  file_key (mkPath "" ["clips"; "foo.bar.wav"]) = "foo" ∧
  file_key (mkPath "/" ["data"; "foo"]) = "foo".
Proof.
  split; [|by split].
  intros f_name. unfold file_key.
  destruct (split_head "." (stem f_name)) as [ws ->].
  apply truncate_stem.
Qed.

(** ** Keys in order of first appearance *)

Lemma elem_of_first_appearance (l : list string) (x : string) :
  x ∈ first_appearance l ↔ x ∈ l.
Proof.
  induction l as [|y l IH]; simpl; [done|].
  rewrite !elem_of_cons, list_elem_of_filter, IH.
  destruct (decide (x = y)); naive_solver.
Qed.

Lemma NoDup_first_appearance (l : list string) : NoDup (first_appearance l).
Proof.
  induction l as [|y l IH]; simpl; [constructor|].
  constructor; [|by apply NoDup_filter].
  rewrite list_elem_of_filter. naive_solver.
Qed.

Lemma first_appearance_snoc (l : list string) (x : string) :
  first_appearance (l ++ [x]) =
  if bool_decide (x ∈ l) then first_appearance l else first_appearance l ++ [x].
Proof.
  induction l as [|y l IH]; simpl; [done|].
  rewrite IH. destruct (decide (x = y)) as [->|Hxy].
  - rewrite (bool_decide_eq_true_2 (y ∈ y :: l)) by left.
    case_bool_decide; [done|].
    rewrite filter_app, filter_cons_False, filter_nil, app_nil_r; [done|naive_solver].
  - case_bool_decide as Hl.
    + by rewrite (bool_decide_eq_true_2 (x ∈ y :: l)) by (by right).
    + rewrite (bool_decide_eq_false_2 (x ∈ y :: l)).
      * by rewrite filter_app, filter_cons_True, filter_nil.
      * rewrite elem_of_cons. naive_solver.
Qed.

Lemma StronglySorted_filter_list {A} (R : relation A) (P : A → Prop)
    `{∀ x, Decision (P x)} (l : list A) :
  StronglySorted R l → StronglySorted R (filter P l).
Proof.
  induction 1 as [|x l Hl IH Hx]; [constructor|].
  destruct (decide (P x)).
  - rewrite filter_cons_True by done. constructor; [done|].
    apply Forall_forall. intros y [_ Hy]%list_elem_of_filter.
    by eapply Forall_forall in Hx.
  - by rewrite filter_cons_False.
Qed.

Lemma StronglySorted_impl_elem_of {A} (R R' : relation A) (l : list A) :
  (∀ a b, a ∈ l → b ∈ l → R a b → R' a b) →
  StronglySorted R l → StronglySorted R' l.
Proof.
  intros HR Hl. induction Hl as [|x l Hl IH Hx]; [constructor|].
  constructor.
  - apply IH. intros a b Ha Hb. apply HR; by right.
  - apply Forall_forall. intros y Hy. apply HR; [left|by right|].
    by eapply Forall_forall in Hx.
Qed.

(** Each key of [first_appearance l] first occurs in [l] before all the
    keys after it. *)
Lemma first_appearance_sorted (l : list string) :
  StronglySorted (λ a b, first_index a l < first_index b l) (first_appearance l).
Proof.
  induction l as [|x l IH]; simpl; [constructor|].
  constructor.
  - eapply StronglySorted_impl_elem_of;
      [|by apply StronglySorted_filter_list, IH].
    intros a b [Ha _]%list_elem_of_filter [Hb _]%list_elem_of_filter Hab. simpl.
    rewrite !bool_decide_eq_false_2 by congruence. lia.
  - apply Forall_forall. intros b [Hb _]%list_elem_of_filter. simpl.
    rewrite bool_decide_eq_true_2 by done.
    rewrite bool_decide_eq_false_2 by congruence. lia.
Qed.

(** ** Numbered caption fields *)

Lemma caption_field_inj (a b : nat) : caption_field a = caption_field b → a = b.
Proof.
  unfold caption_field. intros H.
  apply (inj (String.app "caption_")) in H. by apply (inj pretty) in H.
Qed.

Lemma caption_field_startswith (n : nat) :
  Py.startswith (caption_field n) "caption_" = true.
Proof. unfold caption_field. generalize (pretty n). by intros [|a s]. Qed.

Lemma caption_field_not_file_name (n : nat) : caption_field n ≠ "file_name".
Proof. unfold caption_field. simpl. discriminate. Qed.

Lemma lookup_caption_fields (n : nat) (caps : list string) (f c : string) :
  caption_fields n caps !! f = Some c ↔
  ∃ i, f = caption_field (n + i) ∧ caps !! i = Some c.
Proof.
  revert n. induction caps as [|c' caps IH]; intros n; simpl.
  - rewrite lookup_empty. naive_solver.
  - rewrite lookup_insert. case_decide as Hf.
    + subst f. split.
      * intros [= ->]. exists 0. by rewrite Nat.add_0_r.
      * intros (i & Hi & Hc). apply caption_field_inj in Hi.
        assert (i = 0) as -> by lia. done.
    + rewrite IH. split.
      * intros (i & -> & Hc). exists (S i). split; [f_equal; lia|done].
      * intros ([|i] & -> & Hc).
        { by rewrite Nat.add_0_r in Hf. }
        exists i. split; [f_equal; lia|done].
Qed.

Lemma lookup_caption_fields_None (n m : nat) (caps : list string) :
  m < n → caption_fields n caps !! caption_field m = None.
Proof.
  intros Hm. apply eq_None_not_Some. intros [c Hc].
  apply lookup_caption_fields in Hc as (i & Hi & _).
  apply caption_field_inj in Hi. lia.
Qed.

Lemma caption_fields_snoc (n : nat) (caps : list string) (g : string) :
  caption_fields n (caps ++ [g]) =
  <[caption_field (n + length caps) := g]> (caption_fields n caps).
Proof.
  revert n. induction caps as [|c caps IH]; intros n; simpl.
  - by rewrite Nat.add_0_r.
  - rewrite IH, insert_insert_ne.
    + by replace (S n + length caps) with (n + S (length caps)) by lia.
    + intros H%caption_field_inj. lia.
Qed.

Lemma gt_record_snoc (k : string) (caps : list string) (g : string) :
  <[caption_field (length caps + 1) := g]> (gt_record k caps) =
  gt_record k (caps ++ [g]).
Proof.
  unfold gt_record. rewrite caption_fields_snoc, insert_insert_ne.
  - by replace (length caps + 1) with (1 + length caps) by lia.
  - apply caption_field_not_file_name.
Qed.

Lemma keys_insert_fresh (d : Record_) (f c : string) :
  d !! f = None → keys (<[f := c]> d) ≡ₚ f :: keys d.
Proof.
  intros Hf. unfold keys. by rewrite map_to_list_insert.
Qed.

Lemma count_caption_fields (n : nat) (caps : list string) :
  length (filter (λ i_c, Py.startswith i_c "caption_") (keys (caption_fields n caps)))
  = length caps.
Proof.
  revert n. induction caps as [|c caps IH]; intros n; simpl.
  - unfold keys. by rewrite map_to_list_empty.
  - rewrite keys_insert_fresh by (apply lookup_caption_fields_None; lia).
    rewrite filter_cons_True by (by rewrite caption_field_startswith).
    simpl. by rewrite IH.
Qed.

Lemma count_gt_record (k : string) (caps : list string) :
  length (filter (λ i_c, Py.startswith i_c "caption_") (keys (gt_record k caps)))
  = length caps.
Proof.
  unfold gt_record. rewrite keys_insert_fresh.
  - rewrite filter_cons_False by (simpl; tauto). apply count_caption_fields.
  - apply eq_None_not_Some. intros [c Hc].
    apply lookup_caption_fields in Hc as (i & Hi & _).
    symmetry in Hi. by apply caption_field_not_file_name in Hi.
Qed.

(** ** The loop of the decoder computes [decoded_state] *)

Lemma occurrences_snoc (k : string) (ds : list Decoded) (d : Decoded) :
  occurrences k (ds ++ [d]) =
  occurrences k ds ++ (if decide (d_key d = k) then [d] else []).
Proof.
  unfold occurrences. by rewrite filter_app.
Qed.

Lemma occurrences_nonempty (k : string) (ds : list Decoded) :
  k ∈ d_key <$> ds → ∃ d ds', occurrences k ds = d :: ds' ∧ d ∈ ds ∧ d_key d = k.
Proof.
  intros (d & Hk & Hd)%list_elem_of_fmap.
  assert (d ∈ occurrences k ds) as Hin by (by apply list_elem_of_filter).
  destruct (occurrences k ds) as [|d' ds'] eqn:Ho; [by apply elem_of_nil in Hin|].
  exists d', ds'. split; [done|].
  assert (d' ∈ occurrences k ds) as Hd' by (rewrite Ho; left).
  by apply list_elem_of_filter in Hd' as [? ?].
Qed.

Lemma occurrences_unseen (k : string) (ds : list Decoded) :
  k ∉ d_key <$> ds → occurrences k ds = [].
Proof.
  intros Hk. destruct (occurrences k ds) as [|d ds'] eqn:Ho; [done|].
  assert (d ∈ occurrences k ds) as Hd by (rewrite Ho; left).
  apply list_elem_of_filter in Hd as [Hkey Hd].
  destruct Hk. apply list_elem_of_fmap. eauto.
Qed.

Lemma prediction_of_snoc_seen (k : string) (ds : list Decoded) (d : Decoded) :
  k ∈ d_key <$> ds → prediction_of k (ds ++ [d]) = prediction_of k ds.
Proof.
  intros (d' & ds' & Ho & _)%occurrences_nonempty.
  unfold prediction_of. by rewrite occurrences_snoc, Ho.
Qed.

Lemma add_reference_records (k g : string) (R : string → list string)
    (ks : list string) :
  NoDup ks → k ∈ ks →
  add_reference k g ((λ k', gt_record k' (R k')) <$> ks) =
  Ok ((λ k', gt_record k' (if decide (k' = k) then R k' ++ [g] else R k')) <$> ks).
Proof.
  induction ks as [|k0 ks IH]; intros Hnd Hk; [by apply elem_of_nil in Hk|].
  apply NoDup_cons in Hnd as [Hk0 Hnd]. rewrite !fmap_cons. cbn [add_reference].
  unfold gt_record at 1. rewrite lookup_insert_eq.
  case_bool_decide as Hkk; case_decide; try congruence.
  - subst k0. rewrite count_gt_record, gt_record_snoc. do 2 f_equal.
    apply list_fmap_ext. intros i k' Hk'. case_decide; [|done].
    subst k'. by apply list_elem_of_lookup_2 in Hk'.
  - apply elem_of_cons in Hk as [->|Hk]; [done|].
    by rewrite IH.
Qed.

Lemma record_item_decoded (ds : list Decoded) (d : Decoded) :
  record_item d (decoded_state ds) = Ok (decoded_state (ds ++ [d])).
Proof.
  unfold record_item, decoded_state. cbn [f_names captions_pred captions_gt].
  rewrite fmap_app. change (d_key <$> [d]) with [d_key d].
  rewrite first_appearance_snoc.
  case_bool_decide as Hnew.
  - rewrite elem_of_first_appearance in Hnew.
    rewrite bool_decide_eq_false_2 by done.
    rewrite !fmap_app, !list_fmap_singleton. do 2 f_equal.
    + f_equal.
      * apply list_fmap_ext. intros i k Hk. f_equal. symmetry.
        apply prediction_of_snoc_seen, elem_of_first_appearance.
        by apply list_elem_of_lookup_2 in Hk.
      * unfold prediction_of. rewrite occurrences_snoc, decide_True by done.
        by rewrite occurrences_unseen.
    + f_equal.
      * apply list_fmap_ext. intros i k Hk. f_equal.
        unfold references_of. rewrite occurrences_snoc, decide_False.
        { by rewrite app_nil_r. }
        intros <-. apply Hnew, elem_of_first_appearance.
        by apply list_elem_of_lookup_2 in Hk.
      * unfold references_of. rewrite occurrences_snoc, decide_True by done.
        by rewrite occurrences_unseen.
  - assert (d_key d ∈ d_key <$> ds) as Hseen.
    { apply elem_of_first_appearance. by destruct (decide (d_key d ∈ first_appearance (d_key <$> ds))). }
    rewrite bool_decide_eq_true_2 by done.
    rewrite add_reference_records
      by (apply NoDup_first_appearance || by apply elem_of_first_appearance).
    cbn. do 2 f_equal.
    + apply list_fmap_ext. intros i k Hk. f_equal. symmetry.
      apply prediction_of_snoc_seen, elem_of_first_appearance.
      by apply list_elem_of_lookup_2 in Hk.
    + apply list_fmap_ext. intros i k Hk. f_equal.
      unfold references_of. rewrite occurrences_snoc, fmap_app.
      case_decide; subst; [by rewrite decide_True|by rewrite decide_False, app_nil_r].
Qed.

Section DecoderFacts.

Context {Tensor : Type} (argmax_softmax : Tensor → list nat).

Lemma decode_loop_decoded (indices_object : list string) (eos_token : string)
    (items : list (list Z * Tensor * Path)) (ds0 : list Decoded) :
  decode_loop argmax_softmax indices_object eos_token items (decoded_state ds0) =
  ds ← comprehension (decode_item argmax_softmax indices_object eos_token) items;
  Ok (decoded_state (ds0 ++ ds)).
Proof.
  revert ds0. induction items as [|item items IH]; intros ds0; simpl.
  - by rewrite app_nil_r.
  - destruct (decode_item _ _ _ item) as [d|e]; simpl; [|done].
    rewrite record_item_decoded. simpl. rewrite IH.
    destruct (comprehension _ items) as [ds|e]; simpl; [|done].
    by rewrite <-app_assoc.
Qed.

(** The loop with its three lists is the map over the decoded items. *)
Lemma decode_outputs_decoded (predicted_outputs : list Tensor)
    (ground_truth_outputs : list (list Z)) (indices_object : list string)
    (file_names : list Path) (eos_token : string) (print_to_console : bool) :
  _decode_outputs argmax_softmax predicted_outputs ground_truth_outputs
    indices_object file_names eos_token print_to_console =
  ds ← comprehension (decode_item argmax_softmax indices_object eos_token)
         (Py.zip3 ground_truth_outputs predicted_outputs file_names);
  Ok (captions_pred (decoded_state ds), captions_gt (decoded_state ds)).
Proof.
  unfold _decode_outputs.
  change {| captions_pred := []; captions_gt := []; f_names := [] |}
    with (decoded_state []).
  rewrite decode_loop_decoded. by destruct (comprehension _ _).
Qed.

End DecoderFacts.

(** ** Exceptions of the primitives *)

Lemma index_first (x : string) (l : list string) (i : nat) :
  Py.index x l = Ok i → first_eos x l i.
Proof.
  unfold first_eos. revert i. induction l as [|y l IH]; intros i; simpl; [done|].
  case_bool_decide as Hy.
  - intros [= <-]. split; [by subst|lia].
  - destruct (Py.index x l) as [n|e]; simpl; [|done].
    intros [= <-]. destruct (IH n eq_refl) as [Hn Hlt]. split; [done|].
    intros [|j] Hj; simpl; [congruence|]. apply Hlt. lia.
Qed.

Lemma first_eos_unique (x : string) (l : list string) (i j : nat) :
  first_eos x l i → first_eos x l j → i = j.
Proof.
  intros [Hi Hlti] [Hj Hltj].
  destruct (Nat.lt_trichotomy i j) as [Hlt|[->|Hlt]]; [|done|].
  - by destruct (Hltj i).
  - by destruct (Hlti j).
Qed.

Lemma index_total (x : string) (l : list string) :
  x ∈ l → ∃ i, Py.index x l = Ok i.
Proof.
  induction l as [|y l IH]; simpl; [by intros ?%elem_of_nil|].
  intros Hx. case_bool_decide as Hy; [by eexists|].
  apply elem_of_cons in Hx as [->|Hx]; [done|].
  destruct (IH Hx) as [i ->]. by eexists.
Qed.

Lemma index_Ok (x : string) (l : list string) (i : nat) :
  Py.index x l = Ok i ↔ first_eos x l i.
Proof.
  split; [apply index_first|]. intros Hi.
  destruct (index_total x l) as [j Hj].
  { destruct Hi as [Hi _]. by apply list_elem_of_lookup_2 in Hi. }
  rewrite Hj. f_equal. apply index_first in Hj. by eapply first_eos_unique.
Qed.

Lemma index_missing (x : string) (l : list string) :
  x ∉ l → Py.index x l = Err ValueError.
Proof.
  induction l as [|y l IH]; simpl; [done|].
  intros [Hxy Hx]%not_elem_of_cons.
  rewrite bool_decide_eq_false_2 by congruence. by rewrite IH.
Qed.

Lemma index_Err (x : string) (l : list string) (e : PyError) :
  Py.index x l = Err e ↔ e = ValueError ∧ x ∉ l.
Proof.
  split; [|intros [-> Hx]; by apply index_missing].
  intros He. destruct (decide (x ∈ l)) as [Hx|Hx].
  - apply index_total in Hx as [i Hi]. congruence.
  - rewrite index_missing in He by done. by injection He as <-.
Qed.

Lemma not_elem_of_take_first_eos (x : string) (l : list string) (i : nat) :
  first_eos x l i → x ∉ take i l.
Proof.
  intros [_ Hlt] (j & Hj)%list_elem_of_lookup_1.
  apply lookup_take_Some in Hj as [Hj Hji]. by apply (Hlt j).
Qed.

Lemma truncate_gt_Ok (eos : string) (G g : list string) :
  truncate_gt eos G = Ok g ↔ ∃ i, first_eos eos G i ∧ g = take i G.
Proof.
  unfold truncate_gt. destruct (Py.index eos G) as [i|e] eqn:Hi; simpl.
  - apply index_Ok in Hi. split.
    + intros [= <-]. eauto.
    + intros (j & Hj & ->). apply index_Ok in Hi, Hj. congruence.
  - split; [done|]. intros (j & Hj%index_Ok & _). congruence.
Qed.

Lemma truncate_gt_missing (eos : string) (G : list string) :
  eos ∉ G → truncate_gt eos G = Err ValueError.
Proof.
  intros HG. unfold truncate_gt.
  by rewrite (proj2 (index_Err eos G ValueError)).
Qed.

Lemma truncate_predicted_present (eos : string) (P : list string) (i : nat) :
  first_eos eos P i → truncate_predicted eos P = Ok (take i P).
Proof.
  intros Hi%index_Ok. unfold truncate_predicted. by rewrite Hi.
Qed.

Lemma truncate_predicted_missing (eos : string) (P : list string) :
  eos ∉ P → truncate_predicted eos P = Ok P.
Proof.
  intros HP. unfold truncate_predicted.
  by rewrite (proj2 (index_Err eos P ValueError)).
Qed.

Lemma first_eos_exists (eos : string) (l : list string) :
  eos ∈ l → ∃ i, first_eos eos l i.
Proof.
  intros Hl. destruct (Py.index eos l) as [i|e] eqn:Hi.
  - exists i. by apply index_Ok.
  - apply index_Err in Hi as [_ Hi]. done.
Qed.

Lemma comprehension_app {A B} (f : A → Result B) (l1 l2 : list A) :
  comprehension f (l1 ++ l2) =
  ys1 ← comprehension f l1; ys2 ← comprehension f l2; Ok (ys1 ++ ys2).
Proof.
  induction l1 as [|x l1 IH]; simpl.
  - by destruct (comprehension f l2).
  - destruct (f x) as [y|e]; simpl; [|done]. rewrite IH.
    destruct (comprehension f l1) as [ys1|e]; simpl; [|done].
    by destruct (comprehension f l2).
Qed.

Lemma comprehension_Ok {A B} (f : A → Result B) (l : list A) (ys : list B) :
  comprehension f l = Ok ys ↔ Forall2 (λ x y, f x = Ok y) l ys.
Proof.
  revert ys. induction l as [|x l IH]; intros ys; simpl.
  - split; [intros [= <-]; constructor|by intros ->%Forall2_nil_inv_l].
  - destruct (f x) as [y|e] eqn:Hx; simpl.
    + destruct (comprehension f l) as [ys'|e] eqn:Hl; simpl.
      * split.
        -- intros [= <-]. constructor; [done|]. by apply IH.
        -- intros (y' & ys'' & Hy & Hys & ->)%Forall2_cons_inv_l.
           apply IH in Hys. congruence.
      * split; [done|].
        intros (y' & ys'' & Hy & Hys & ->)%Forall2_cons_inv_l.
        apply IH in Hys. congruence.
    + split; [done|].
      intros (y' & ys'' & Hy & Hys & ->)%Forall2_cons_inv_l. congruence.
Qed.

Lemma lookup_caption_fields_nth (n i : nat) (caps : list string) :
  caption_fields n caps !! caption_field (n + i) = caps !! i.
Proof.
  apply option_eq. intros c. rewrite lookup_caption_fields. split; [|by eauto].
  intros (j & Hj%caption_field_inj & Hc). by replace i with j by lia.
Qed.

Lemma gt_record_file_name (k : string) (caps : list string) :
  gt_record k caps !! "file_name" = Some k.
Proof. apply lookup_insert_eq. Qed.

Lemma gt_record_caption (k : string) (caps : list string) (n : nat) :
  gt_record k caps !! caption_field (S n) = caps !! n.
Proof.
  unfold gt_record. rewrite lookup_insert_ne.
  - apply (lookup_caption_fields_nth 1 n).
  - intros H. symmetry in H. by apply caption_field_not_file_name in H.
Qed.

Lemma gt_record_fields (k : string) (caps : list string) (f : string) :
  is_Some (gt_record k caps !! f) →
  f = "file_name" ∨ ∃ n, n < length caps ∧ f = caption_field (S n).
Proof.
  unfold gt_record. rewrite lookup_insert. case_decide; [by left|].
  intros [c (i & -> & Hc)%lookup_caption_fields]. right.
  exists i. split; [by eapply lookup_lt_Some|done].
Qed.

(** ** Properties of the decoder *)

Section DecoderClaims.

Context {Tensor : Type} (argmax_softmax : Tensor → list nat).

Lemma decode_outputs_Ok (predicted_outputs : list Tensor)
    (ground_truth_outputs : list (list Z)) (indices_object : list string)
    (file_names : list Path) (eos_token : string) (print_to_console : bool)
    (cp cg : list Record_) :
  _decode_outputs argmax_softmax predicted_outputs ground_truth_outputs
    indices_object file_names eos_token print_to_console = Ok (cp, cg) →
  ∃ ds,
    comprehension (decode_item argmax_softmax indices_object eos_token)
      (Py.zip3 ground_truth_outputs predicted_outputs file_names) = Ok ds ∧
    cp = captions_pred (decoded_state ds) ∧ cg = captions_gt (decoded_state ds).
Proof.
  rewrite decode_outputs_decoded.
  destruct (comprehension _ _) as [ds|e]; simpl; [|done].
  intros [= <- <-]. by exists ds.
Qed.

(** C3: an item whose ground truth has no end-of-sequence token makes the
    call fail with [ValueError]; an item whose prediction has none is
    decoded without error, and its predicted caption is the whole mapped
    prediction. The items before it are taken to have been decoded, and the
    indices of the item to be in the table. *)
Theorem decode_outputs_missing_eos (predicted_outputs : list Tensor)
    (ground_truth_outputs : list (list Z)) (indices_object : list string)
    (file_names : list Path) (eos_token : string) (print_to_console : bool)
    (pre post : list (list Z * Tensor * Path)) (gt_words : list Z)
    (b_predictions : Tensor) (f_name : Path) (ds : list Decoded)
    (G P : list string) :
  Py.zip3 ground_truth_outputs predicted_outputs file_names =
    pre ++ (gt_words, b_predictions, f_name) :: post →
  comprehension (decode_item argmax_softmax indices_object eos_token) pre = Ok ds →
  comprehension (Py.getitem indices_object) gt_words = Ok G →
  comprehension (λ i : nat, Py.getitem indices_object (Z.of_nat i))
    (argmax_softmax b_predictions) = Ok P →
  (eos_token ∉ G →
     _decode_outputs argmax_softmax predicted_outputs ground_truth_outputs
       indices_object file_names eos_token print_to_console = Err ValueError) ∧
  (eos_token ∈ G → eos_token ∉ P →
     ∃ g,
       decode_tokens argmax_softmax indices_object eos_token gt_words b_predictions
         = Ok (P, g) ∧
       decode_loop argmax_softmax indices_object eos_token
         (pre ++ [(gt_words, b_predictions, f_name)])
         {| captions_pred := []; captions_gt := []; f_names := [] |} =
       Ok (decoded_state
             (ds ++ [{| d_key := file_key f_name;
                        d_predicted := Py.join " " P;
                        d_gt := Py.join " " g |}]))).
Proof.
  intros Hzip Hpre HG HP. split.
  - intros Hmiss. rewrite decode_outputs_decoded, Hzip, comprehension_app, Hpre.
    simpl. unfold decode_tokens. rewrite HP, HG. simpl.
    by rewrite truncate_gt_missing.
  - intros [i Hi]%first_eos_exists Hmiss.
    exists (take i G).
    assert (decode_tokens argmax_softmax indices_object eos_token gt_words
              b_predictions = Ok (P, take i G)) as Htok.
    { unfold decode_tokens. rewrite HP, HG. simpl.
      rewrite (proj2 (truncate_gt_Ok eos_token G (take i G))) by eauto. simpl.
      by rewrite truncate_predicted_missing. }
    split; [done|].
    change {| captions_pred := []; captions_gt := []; f_names := [] |}
      with (decoded_state []).
    rewrite decode_loop_decoded, comprehension_app, Hpre. simpl.
    by rewrite Htok.
Qed.

(** C4: the predicted list has one record per distinct file key, with the
    caption of the key's first occurrence; the ground-truth record of a key
    has the fields [caption_1] ... [caption_k] for its [k] occurrences, in
    order, and [file_name], and no other. Three files [a.wav], [b.wav],
    [a.wav] give two predicted records and two captions for [a]. *)
Theorem decode_outputs_records :
  (∀ (predicted_outputs : list Tensor) (ground_truth_outputs : list (list Z))
     (indices_object : list string) (file_names : list Path)
     (eos_token : string) (print_to_console : bool) (cp cg : list Record_),
     _decode_outputs argmax_softmax predicted_outputs ground_truth_outputs
       indices_object file_names eos_token print_to_console = Ok (cp, cg) →
     ∃ ds,
       comprehension (decode_item argmax_softmax indices_object eos_token)
         (Py.zip3 ground_truth_outputs predicted_outputs file_names) = Ok ds ∧
       let ks := first_appearance (d_key <$> ds) in
       NoDup ks ∧ (∀ k, k ∈ ks ↔ k ∈ d_key <$> ds) ∧
       length cp = length ks ∧
       ∀ i k, ks !! i = Some k →
         ∃ d ds', occurrences k ds = d :: ds' ∧
           cp !! i = Some {[ "file_name" := k;
                             "caption_predicted" := d_predicted d ]} ∧
           ∃ r, cg !! i = Some r ∧ r !! "file_name" = Some k ∧
             (∀ n, r !! caption_field (S n) = d_gt <$> occurrences k ds !! n) ∧
             (∀ f, is_Some (r !! f) →
                f = "file_name" ∨
                ∃ n, n < length (occurrences k ds) ∧ f = caption_field (S n))) ∧
  _decode_outputs classes_argmax ex_predicted ex_ground_truth vocab
    [wav "a.wav"; wav "b.wav"; wav "a.wav"] "<eos>" false =
  Ok ([{[ "file_name" := "a"; "caption_predicted" := "<sos> a dog" ]};
       {[ "file_name" := "b"; "caption_predicted" := "<sos> bird sings sings" ]}],
      [{[ "file_name" := "a"; "caption_1" := "<sos> a dog barks";
          "caption_2" := "<sos> dog barks" ]};
       {[ "file_name" := "b"; "caption_1" := "<sos> a bird sings" ]}]).
Proof.
  split; [|reflexivity].
  intros po gto io fns eos ptc cp cg (ds & Hds & -> & ->)%decode_outputs_Ok.
  exists ds. split; [done|]. cbn zeta.
  split; [apply NoDup_first_appearance|].
  split; [apply elem_of_first_appearance|].
  split; [cbn [decoded_state captions_pred]; by rewrite length_fmap|].
  intros i k Hk.
  destruct (occurrences_nonempty k ds) as (d & ds' & Ho & _).
  { apply elem_of_first_appearance. by eapply list_elem_of_lookup_2. }
  exists d, ds'. split; [done|]. cbn [decoded_state captions_pred captions_gt].
  rewrite !list_lookup_fmap, Hk. simpl. split.
  - unfold predicted_record, prediction_of. by rewrite Ho.
  - eexists. split; [done|]. split; [apply gt_record_file_name|]. split.
    + intros n. rewrite gt_record_caption. unfold references_of.
      by rewrite list_lookup_fmap.
    + intros f Hf%gt_record_fields. unfold references_of in Hf.
      by rewrite length_fmap in Hf.
Qed.

Lemma truncate_predicted_Ok (eos : string) (P p : list string) :
  truncate_predicted eos P = Ok p →
  (eos ∉ p) ∧ (eos ∉ P → p = P) ∧ (∀ i, first_eos eos P i → p = take i P).
Proof.
  destruct (decide (eos ∈ P)) as [HP|HP].
  - destruct (first_eos_exists _ _ HP) as [i Hi].
    rewrite (truncate_predicted_present _ _ _ Hi). intros [= <-].
    split; [by apply not_elem_of_take_first_eos|]. split; [done|].
    intros j Hj. by rewrite (first_eos_unique _ _ _ _ Hi Hj).
  - rewrite truncate_predicted_missing by done. intros [= <-].
    split; [done|]. split; [done|].
    intros i [Hi _]. by apply list_elem_of_lookup_2 in Hi.
Qed.

Lemma decode_item_Ok (indices_object : list string) (eos_token : string)
    (gt_words : list Z) (b_predictions : Tensor) (f_name : Path) (d : Decoded) :
  decode_item argmax_softmax indices_object eos_token
    (gt_words, b_predictions, f_name) = Ok d →
  ∃ P G p g,
    comprehension (λ i : nat, Py.getitem indices_object (Z.of_nat i))
      (argmax_softmax b_predictions) = Ok P ∧
    comprehension (Py.getitem indices_object) gt_words = Ok G ∧
    truncate_gt eos_token G = Ok g ∧
    truncate_predicted eos_token P = Ok p ∧
    d = {| d_key := file_key f_name;
           d_predicted := Py.join " " p;
           d_gt := Py.join " " g |}.
Proof.
  unfold decode_item, decode_tokens.
  destruct (comprehension _ (argmax_softmax _)) as [P|e]; simpl; [|done].
  destruct (comprehension _ gt_words) as [G|e]; simpl; [|done].
  destruct (truncate_gt eos_token G) as [g|e] eqn:Hg; simpl; [|done].
  destruct (truncate_predicted eos_token P) as [p|e] eqn:Hp; simpl; [|done].
  intros [= <-]. by exists P, G, p, g.
Qed.

Lemma decoded_from_item (indices_object : list string) (eos_token : string)
    (items : list (list Z * Tensor * Path)) (ds : list Decoded) (d : Decoded) :
  comprehension (decode_item argmax_softmax indices_object eos_token) items = Ok ds →
  d ∈ ds →
  ∃ item, item ∈ items ∧
    decode_item argmax_softmax indices_object eos_token item = Ok d.
Proof.
  intros Hds%comprehension_Ok (i & Hi)%list_elem_of_lookup_1.
  destruct (Forall2_lookup_r _ _ _ _ _ Hds Hi) as (item & Hitem & Hd).
  exists item. split; [by eapply list_elem_of_lookup_2|done].
Qed.

(** C5: a ground-truth caption is made of the tokens before the first
    end-of-sequence token of the mapped ground truth, and has no such token;
    a predicted caption has no end-of-sequence token, is the whole mapped
    prediction when that has none, and otherwise the tokens before the
    first one. *)
Theorem decode_outputs_truncation (predicted_outputs : list Tensor)
    (ground_truth_outputs : list (list Z)) (indices_object : list string)
    (file_names : list Path) (eos_token : string) (print_to_console : bool)
    (cp cg : list Record_) :
  _decode_outputs argmax_softmax predicted_outputs ground_truth_outputs
    indices_object file_names eos_token print_to_console = Ok (cp, cg) →
  (∀ r n c, r ∈ cg → r !! caption_field n = Some c →
     ∃ gt_words b_predictions f_name G i,
       (gt_words, b_predictions, f_name) ∈
         Py.zip3 ground_truth_outputs predicted_outputs file_names ∧
       comprehension (Py.getitem indices_object) gt_words = Ok G ∧
       first_eos eos_token G i ∧
       c = Py.join " " (take i G) ∧ eos_token ∉ take i G) ∧
  (∀ r c, r ∈ cp → r !! "caption_predicted" = Some c →
     ∃ gt_words b_predictions f_name P p,
       (gt_words, b_predictions, f_name) ∈
         Py.zip3 ground_truth_outputs predicted_outputs file_names ∧
       comprehension (λ i : nat, Py.getitem indices_object (Z.of_nat i))
         (argmax_softmax b_predictions) = Ok P ∧
       c = Py.join " " p ∧ (eos_token ∉ p) ∧
       (eos_token ∉ P → p = P) ∧
       (∀ i, first_eos eos_token P i → p = take i P)).
Proof.
  intros (ds & Hds & -> & ->)%decode_outputs_Ok.
  cbn [decoded_state captions_pred captions_gt]. split.
  - intros r n c (k & -> & Hk)%list_elem_of_fmap Hc.
    destruct n as [|n].
    { unfold gt_record in Hc. rewrite lookup_insert_ne in Hc.
      - by rewrite (lookup_caption_fields_None 1 0) in Hc by lia.
      - intros H. symmetry in H. by apply caption_field_not_file_name in H. }
    rewrite gt_record_caption in Hc. unfold references_of in Hc.
    rewrite list_lookup_fmap in Hc.
    destruct (occurrences k ds !! n) as [d|] eqn:Hd; [|done].
    injection Hc as <-.
    apply list_elem_of_lookup_2, list_elem_of_filter in Hd as [_ Hd].
    destruct (decoded_from_item _ _ _ _ _ Hds Hd) as ([[gtw b] fn] & Hin & Hit).
    apply decode_item_Ok in Hit as (P & G & p & g & HP & HG & Hg & Hp & ->).
    apply truncate_gt_Ok in Hg as (i & Hi & ->).
    exists gtw, b, fn, G, i. do 4 (split; [done|]).
    by apply not_elem_of_take_first_eos.
  - intros r c (k & -> & Hk)%list_elem_of_fmap Hc.
    unfold predicted_record in Hc.
    rewrite lookup_insert_ne, lookup_singleton_eq in Hc by done.
    injection Hc as <-.
    destruct (occurrences_nonempty k ds) as (d & ds' & Ho & Hd & _).
    { by apply elem_of_first_appearance. }
    unfold prediction_of. rewrite Ho.
    destruct (decoded_from_item _ _ _ _ _ Hds Hd) as ([[gtw b] fn] & Hin & Hit).
    apply decode_item_Ok in Hit as (P & G & p & g & HP & HG & Hg & Hp & ->).
    apply truncate_predicted_Ok in Hp as (Hp1 & Hp2 & Hp3).
    by exists gtw, b, fn, P, p.
Qed.

(** C6: the decoder is a function of its arguments, and the file names of
    both returned lists are the file keys in the order of their first
    appearance among the items. *)
Theorem decode_outputs_deterministic_ordered (predicted_outputs : list Tensor)
    (ground_truth_outputs : list (list Z)) (indices_object : list string)
    (file_names : list Path) (eos_token : string) (print_to_console : bool)
    (r1 r2 : Result (list Record_ * list Record_)) :
  r1 = _decode_outputs argmax_softmax predicted_outputs ground_truth_outputs
         indices_object file_names eos_token print_to_console →
  r2 = _decode_outputs argmax_softmax predicted_outputs ground_truth_outputs
         indices_object file_names eos_token print_to_console →
  r1 = r2 ∧
  ∀ cp cg, r1 = Ok (cp, cg) →
    ∃ ds,
      comprehension (decode_item argmax_softmax indices_object eos_token)
        (Py.zip3 ground_truth_outputs predicted_outputs file_names) = Ok ds ∧
      let ks := first_appearance (d_key <$> ds) in
      (λ r : Record_, r !! "file_name") <$> cp = Some <$> ks ∧
      (λ r : Record_, r !! "file_name") <$> cg = Some <$> ks ∧
      NoDup ks ∧ (∀ k, k ∈ ks ↔ k ∈ d_key <$> ds) ∧
      StronglySorted
        (λ a b, first_index a (d_key <$> ds) < first_index b (d_key <$> ds)) ks.
Proof.
  intros -> ->. split; [done|].
  intros cp cg (ds & Hds & -> & ->)%decode_outputs_Ok.
  exists ds. split; [done|]. cbn zeta.
  cbn [decoded_state captions_pred captions_gt].
  rewrite <-!list_fmap_compose.
  split; [by apply list_fmap_ext|].
  split; [apply list_fmap_ext; intros i k _; apply gt_record_file_name|].
  split; [apply NoDup_first_appearance|].
  split; [apply elem_of_first_appearance|].
  apply first_appearance_sorted.
Qed.

(** C10: the two returned lists have the same length, and the records at
    the same index have the same [file_name]. *)
Theorem decode_outputs_aligned (predicted_outputs : list Tensor)
    (ground_truth_outputs : list (list Z)) (indices_object : list string)
    (file_names : list Path) (eos_token : string) (print_to_console : bool)
    (cp cg : list Record_) :
  _decode_outputs argmax_softmax predicted_outputs ground_truth_outputs
    indices_object file_names eos_token print_to_console = Ok (cp, cg) →
  length cp = length cg ∧
  ∀ i p g, cp !! i = Some p → cg !! i = Some g →
    ∃ k, p !! "file_name" = Some k ∧ g !! "file_name" = Some k.
Proof.
  intros (ds & Hds & -> & ->)%decode_outputs_Ok.
  cbn [decoded_state captions_pred captions_gt].
  split; [by rewrite !length_fmap|].
  intros i p g. rewrite !list_lookup_fmap.
  destruct (first_appearance (d_key <$> ds) !! i) as [k|]; [|done].
  simpl. intros [= <-] [= <-]. exists k.
  split; [apply lookup_insert_eq|apply gt_record_file_name].
Qed.

End DecoderClaims.

(** ** Paths of the checkpoint files *)

Lemma string_app_assoc (a b c : string) : (a +:+ b) +:+ c = a +:+ (b +:+ c).
Proof.
  induction a as [|x a IH]; [done|].
  change (String x ((a +:+ b) +:+ c) = String x (a +:+ (b +:+ c))).
  by rewrite IH.
Qed.

Lemma concat_snoc_prefix (sep : string) (ps : list string) :
  ∃ pre, ∀ a, String.concat sep (ps ++ [a]) = pre +:+ a.
Proof.
  induction ps as [|p ps [pre IH]]; simpl.
  - by exists "".
  - exists (p +:+ sep +:+ pre). intros a.
    destruct (ps ++ [a]) as [|q qs] eqn:Hq; [by destruct ps|].
    rewrite <-Hq, IH. by rewrite !string_app_assoc.
Qed.

Lemma str_joinpath_prefix (d : Path) :
  ∃ pre, ∀ a, str (joinpath d a) = pre +:+ a.
Proof.
  destruct d as [r ps]. destruct (concat_snoc_prefix "/" ps) as [pre Hpre].
  exists (r +:+ pre). intros a. unfold str, joinpath. simpl.
  rewrite string_app_assoc, <-Hpre.
  destruct r; [|done]. by destruct ps.
Qed.

Lemma str_joinpath_inj (d : Path) (a b : string) :
  str (joinpath d a) = str (joinpath d b) → a = b.
Proof.
  destruct (str_joinpath_prefix d) as [pre Hpre]. rewrite !Hpre.
  apply (inj (String.app pre)).
Qed.

Lemma string_length_app (a b : string) :
  String.length (a +:+ b) = String.length a + String.length b.
Proof.
  induction a as [|x a IH]; [done|].
  change (S (String.length (a +:+ b)) = S (String.length a + String.length b)).
  by rewrite IH.
Qed.

Lemma zeros_length (k : nat) :
  String.length (String.concat "" (replicate k "0")) = k.
Proof.
  induction k as [|k IH]; [done|].
  destruct k as [|k]; [done|].
  change (String.length
            ("0" +:+ "" +:+ String.concat "" (replicate (S k) "0")) = S (S k)).
  by rewrite !string_length_app, IH.
Qed.

(** [{n:05d}]: the decimal digits of [n] after as many zeros as five digits
    need. *)
Lemma fmt_05d_length (n : nat) :
  String.length (Py.fmt_05d n) = 5 `max` String.length (pretty n).
Proof.
  unfold Py.fmt_05d. rewrite string_length_app, zeros_length. lia.
Qed.

(** ** Properties of the orchestrator *)

Section TrainingClaims.

Context {Tensor : Type} (argmax_softmax : Tensor → list nat).
Context {Params Optimizer Rng : Type}.
Context (module_epoch_passing :
           Params → Optimizer → Rng →
           EpochOutput (Tensor := Tensor) * Params * Optimizer * Rng)
        (mean_item : Tensor → float)
        (Adam : Params → float → Optimizer)
        (randperm : nat → Rng → list nat * Rng).

#[local] Abbreviation TState :=
  (TrainState (Params := Params) (Optimizer := Optimizer) (Rng := Rng)).
#[local] Abbreviation body :=
  (epoch_body argmax_softmax module_epoch_passing mean_item randperm).

Lemma latest_not_epoch_file (model_dir : Path) (model_file_name save_str : string)
    (epoch : nat) :
  latest_file model_dir model_file_name save_str ≠
  epoch_file model_dir model_file_name epoch.
Proof. unfold latest_file, epoch_file. by intros H%str_joinpath_inj. Qed.

(** An epoch that ends: the pass, the decoding, then lines 259-286. *)
Lemma epoch_body_Ok (s : Settings) (model_file_name : string) (model_dir : Path)
    (indices_list : list string) (epoch : nat) (st st' : TState) :
  body s model_file_name model_dir indices_list epoch st = Ok st' →
  ∃ out m o g g',
    module_epoch_passing (model st) (optimizer st) (rng st) = (out, m, o, g) ∧
    periodic_decoding argmax_softmax randperm s indices_list epoch out g = Ok g' ∧
    st' = check_stopping s (save_latest model_dir model_file_name
            (check_improvement s model_dir model_file_name epoch
               (mean_item (objective_output out))
               (mkTrainState (prv_training_loss st) (patience_counter st)
                  (best_epoch st) m o g' (fs st)
                  (events st ++ [LogEpoch epoch (mean_item (objective_output out))])))).
Proof.
  unfold epoch_body.
  destruct (module_epoch_passing _ _ _) as [[[out m] o] g]. cbn.
  destruct (periodic_decoding _ _ _ _ _ _ _) as [g'|e] eqn:Hg; cbn; [|done].
  intros [= <-]. by exists out, m, o, g, g'.
Qed.

Lemma check_improvement_mk (s : Settings) (model_dir : Path)
    (model_file_name : string) (epoch : nat) (loss prv : float) (c : Z)
    (be : nat) (m : Params) (o : Optimizer) (g : Rng)
    (files : gmap string Blob) (evs : list Event) :
  check_improvement s model_dir model_file_name epoch loss
    (mkTrainState prv c be m o g files evs) =
  if PrimFloat.ltb (loss_thr s) (PrimFloat.sub prv loss)
  then mkTrainState loss 0 epoch m o g
         (<[epoch_file model_dir model_file_name epoch := ModelState m]> files)
         (evs ++ [Saved (epoch_file model_dir model_file_name epoch) (ModelState m)])
  else mkTrainState prv (c + 1) be m o g files evs.
Proof. unfold check_improvement. cbn. by destruct (PrimFloat.ltb _ _). Qed.

Lemma save_latest_mk (model_dir : Path) (model_file_name : string)
    (prv : float) (c : Z) (be : nat) (m : Params) (o : Optimizer) (g : Rng)
    (files : gmap string Blob) (evs : list Event) :
  save_latest model_dir model_file_name (mkTrainState prv c be m o g files evs) =
  mkTrainState prv c be m o g
    (<[latest_file model_dir model_file_name "_optimizer" := OptimizerState o]>
       (<[latest_file model_dir model_file_name "" := ModelState m]> files))
    ((evs ++ [Saved (latest_file model_dir model_file_name "") (ModelState m)]) ++
     [Saved (latest_file model_dir model_file_name "_optimizer") (OptimizerState o)]).
Proof. reflexivity. Qed.

Lemma check_stopping_mk (s : Settings) (prv : float) (c : Z) (be : nat)
    (m : Params) (o : Optimizer) (g : Rng) (files : gmap string Blob)
    (evs : list Event) :
  check_stopping s (mkTrainState prv c be m o g files evs) =
  mkTrainState prv c be m o g files
    (evs ++ if (patience s <=? c)%Z then [LogStop c] else []).
Proof.
  unfold check_stopping. cbn. case_match; [done|]. by rewrite app_nil_r.
Qed.

(** The state at the end of an epoch, field by field. *)
Lemma epoch_body_spec (s : Settings) (model_file_name : string) (model_dir : Path)
    (indices_list : list string) (epoch : nat) (st st' : TState) :
  body s model_file_name model_dir indices_list epoch st = Ok st' →
  ∃ out m o g g',
    module_epoch_passing (model st) (optimizer st) (rng st) = (out, m, o, g) ∧
    periodic_decoding argmax_softmax randperm s indices_list epoch out g = Ok g' ∧
    let loss := mean_item (objective_output out) in
    let latest :=
      [Saved (latest_file model_dir model_file_name "") (ModelState m);
       Saved (latest_file model_dir model_file_name "_optimizer") (OptimizerState o)] in
    st' =
    if PrimFloat.ltb (loss_thr s) (PrimFloat.sub (prv_training_loss st) loss)
    then mkTrainState loss 0 epoch m o g'
           (<[latest_file model_dir model_file_name "_optimizer" := OptimizerState o]>
              (<[latest_file model_dir model_file_name "" := ModelState m]>
                 (<[epoch_file model_dir model_file_name epoch := ModelState m]>
                    (fs st))))
           (events st ++
              LogEpoch epoch loss ::
              Saved (epoch_file model_dir model_file_name epoch) (ModelState m) ::
              latest ++ if (patience s <=? 0)%Z then [LogStop 0] else [])
    else mkTrainState (prv_training_loss st) (patience_counter st + 1)
           (best_epoch st) m o g'
           (<[latest_file model_dir model_file_name "_optimizer" := OptimizerState o]>
              (<[latest_file model_dir model_file_name "" := ModelState m]> (fs st)))
           (events st ++
              LogEpoch epoch loss ::
              latest ++ if (patience s <=? patience_counter st + 1)%Z
                        then [LogStop (patience_counter st + 1)] else []).
Proof.
  intros (out & m & o & g & g' & Hpass & Hdec & ->)%epoch_body_Ok.
  exists out, m, o, g, g'. split; [done|]. split; [done|]. cbn zeta.
  rewrite check_improvement_mk.
  destruct (PrimFloat.ltb _ _);
    rewrite save_latest_mk, check_stopping_mk, <-!app_assoc; reflexivity.
Qed.

Lemma saves_app (evs1 evs2 : list (Event (Params := Params) (Optimizer := Optimizer))) :
  saves (evs1 ++ evs2) = saves evs1 ++ saves evs2.
Proof.
  induction evs1 as [|e evs1 IH]; simpl; [done|].
  rewrite IH. by destruct e.
Qed.

(** C2: an epoch is an improvement exactly when the previous loss minus the
    mean loss of the epoch is greater than [loss_thr]; then the patience
    counter is zero, the previous loss is the loss of the epoch and the best
    epoch is the epoch; otherwise the counter is one more and the other two
    are unchanged. The previous loss starts at [1e8]. With the threshold
    [0.01] and the losses [10.0, 9.5, 9.48, 9.47] the counter is
    [0, 0, 0, 1] after the four epochs, and the best epoch [0, 1, 2, 2]. *)
Theorem improvement_test :
  (∀ (s : Settings) (model_file_name : string) (model_dir : Path)
     (indices_list : list string) (epoch : nat) (st st' : TState),
     body s model_file_name model_dir indices_list epoch st = Ok st' →
     ∃ out m o g,
       module_epoch_passing (model st) (optimizer st) (rng st) = (out, m, o, g) ∧
       let training_loss := mean_item (objective_output out) in
       if PrimFloat.ltb (loss_thr s)
            (PrimFloat.sub (prv_training_loss st) training_loss)
       then patience_counter st' = 0%Z ∧
            prv_training_loss st' = training_loss ∧
            best_epoch st' = epoch
       else patience_counter st' = (patience_counter st + 1)%Z ∧
            prv_training_loss st' = prv_training_loss st ∧
            best_epoch st' = best_epoch st) ∧
  (∀ (m : Params) (s : Settings) (g : Rng) (files : gmap string Blob),
     prv_training_loss (initial_state Adam m s g files) = 1e8%float ∧
     patience_counter (initial_state Adam m s g files) = 0%Z ∧
     best_epoch (initial_state Adam m s g files) = 0) ∧
  (λ n, on_result (λ st, (patience_counter st, best_epoch st))
          (Scenario.run_epochs n)) <$> [1; 2; 3; 4] =
  [Some (0%Z, 0); Some (0%Z, 1); Some (0%Z, 2); Some (1%Z, 2)].
Proof.
  split; [|split; [done|reflexivity]].
  intros s name dir idx epoch st st' (out & m & o & g & g' & Hpass & _ & Hst)%epoch_body_spec.
  exists out, m, o, g. split; [done|]. cbn zeta in *.
  destruct (PrimFloat.ltb _ _); by subst st'.
Qed.

(** C7: an epoch that ends writes the model to [latest_<name>] and the
    optimizer to [latest_optimizer_<name>] of the model directory, and
    before them, when and only when the epoch is an improvement, the model
    to [epoch_<epoch on five digits>_<name>]; it writes nothing else. *)
Theorem epoch_checkpoints :
  (∀ (s : Settings) (model_file_name : string) (model_dir : Path)
     (indices_list : list string) (epoch : nat) (st st' : TState),
     body s model_file_name model_dir indices_list epoch st = Ok st' →
     ∃ out g,
       module_epoch_passing (model st) (optimizer st) (rng st) =
         (out, model st', optimizer st', g) ∧
       saves (events st') =
         saves (events st) ++
         (if PrimFloat.ltb (loss_thr s)
               (PrimFloat.sub (prv_training_loss st)
                  (mean_item (objective_output out)))
          then [(str (joinpath model_dir
                        ("epoch_" +:+ Py.fmt_05d epoch +:+ "_" +:+ model_file_name)),
                 ModelState (model st'))]
          else []) ++
         [(str (joinpath model_dir ("latest_" +:+ model_file_name)),
           ModelState (model st'));
          (str (joinpath model_dir ("latest_optimizer_" +:+ model_file_name)),
           OptimizerState (optimizer st'))]) ∧
  (∀ n, String.length (Py.fmt_05d n) = 5 `max` String.length (pretty n)) ∧
  Py.fmt_05d 0 = "00000" ∧ Py.fmt_05d 42 = "00042" ∧ Py.fmt_05d 12345 = "12345" ∧
  str (joinpath (mkPath "" ["outputs"; "models"]) ("latest_" +:+ "model.pt"))
    = "outputs/models/latest_model.pt".
Proof.
  split; [|split; [apply fmt_05d_length|by repeat split]].
  intros s name dir idx epoch st st' (out & m & o & g & g' & Hpass & _ & Hst)%epoch_body_spec.
  exists out, g. cbn zeta in Hst.
  destruct (PrimFloat.ltb _ _); subst st';
    cbn [model optimizer events]; (split; [done|]);
    rewrite saves_app; f_equal; by case_match.
Qed.

Lemma latest_not_checkpoint (model_dir : Path) (model_file_name save_str : string)
    (b : Blob (Params := Params) (Optimizer := Optimizer)) :
  ¬ is_checkpoint model_dir model_file_name
      (Saved (latest_file model_dir model_file_name save_str) b).
Proof. intros (ep & b' & [= H _]). by apply latest_not_epoch_file in H. Qed.

Lemma epoch_tail_not_checkpoint (s : Settings) (model_dir : Path)
    (model_file_name : string) (m : Params) (o : Optimizer) (c : Z) :
  Forall (λ e, ¬ is_checkpoint model_dir model_file_name e)
    ([Saved (latest_file model_dir model_file_name "") (ModelState m);
      Saved (latest_file model_dir model_file_name "_optimizer") (OptimizerState o)]
     ++ (if (patience s <=? c)%Z then [LogStop c] else [])).
Proof.
  apply Forall_app. split.
  - repeat constructor; apply latest_not_checkpoint.
  - case_match; repeat constructor. by intros (? & ? & [=]).
Qed.

Lemma epoch_body_events (s : Settings) (model_file_name : string)
    (model_dir : Path) (indices_list : list string) (epoch : nat) (st st' : TState) :
  body s model_file_name model_dir indices_list epoch st = Ok st' →
  ∃ loss m o,
    (PrimFloat.ltb (loss_thr s) (PrimFloat.sub (prv_training_loss st) loss) = true ∧
     best_epoch st' = epoch ∧
     events st' = events st ++
       LogEpoch epoch loss ::
       Saved (epoch_file model_dir model_file_name epoch) (ModelState m) ::
       [Saved (latest_file model_dir model_file_name "") (ModelState m);
        Saved (latest_file model_dir model_file_name "_optimizer") (OptimizerState o)]
       ++ (if (patience s <=? 0)%Z then [LogStop 0] else []) ∧
     fs st' = <[latest_file model_dir model_file_name "_optimizer" := OptimizerState o]>
                (<[latest_file model_dir model_file_name "" := ModelState m]>
                   (<[epoch_file model_dir model_file_name epoch := ModelState m]>
                      (fs st)))) ∨
    (PrimFloat.ltb (loss_thr s) (PrimFloat.sub (prv_training_loss st) loss) = false ∧
     best_epoch st' = best_epoch st ∧
     events st' = events st ++
       LogEpoch epoch loss ::
       [Saved (latest_file model_dir model_file_name "") (ModelState m);
        Saved (latest_file model_dir model_file_name "_optimizer") (OptimizerState o)]
       ++ (if (patience s <=? patience_counter st + 1)%Z
           then [LogStop (patience_counter st + 1)] else []) ∧
     fs st' = <[latest_file model_dir model_file_name "_optimizer" := OptimizerState o]>
                (<[latest_file model_dir model_file_name "" := ModelState m]> (fs st))).
Proof.
  intros (out & m & o & g & g' & Hpass & _ & Hst)%epoch_body_spec.
  exists (mean_item (objective_output out)), m, o. cbn zeta in Hst.
  destruct (PrimFloat.ltb _ _); [left|right]; by subst st'.
Qed.

Lemma epoch_body_best (s : Settings) (model_file_name : string)
    (model_dir : Path) (indices_list : list string) (epoch : nat) (st st' : TState) :
  body s model_file_name model_dir indices_list epoch st = Ok st' →
  best_is_last_checkpoint model_dir model_file_name st →
  best_is_last_checkpoint model_dir model_file_name st'.
Proof.
  intros (loss & m & o & [(_ & Hbest & Hev & Hfs)|(_ & Hbest & Hev & Hfs)])%epoch_body_events
    Hinv.
  - right. exists (events st), loss, m. eexists.
    rewrite Hbest. split; [exact Hev|]. split.
    + apply epoch_tail_not_checkpoint.
    + rewrite Hfs, !lookup_insert_ne by apply latest_not_epoch_file.
      apply lookup_insert_eq.
  - destruct Hinv as [Hno|(pre & loss' & p & post & Hev' & Hpost & Hfile)].
    + left. rewrite Hev. apply Forall_app. split; [done|].
      constructor; [by intros (? & ? & [=])|]. apply epoch_tail_not_checkpoint.
    + right. exists pre, loss', p. eexists.
      rewrite Hbest, Hev, Hev', <-app_assoc. simpl.
      split; [reflexivity|]. split.
      * apply Forall_app. split; [done|].
        constructor; [by intros (? & ? & [=])|]. apply epoch_tail_not_checkpoint.
      * by rewrite Hfs, !lookup_insert_ne by apply latest_not_epoch_file.
Qed.

Lemma epoch_loop_best (s : Settings) (model_file_name : string)
    (model_dir : Path) (indices_list : list string) (epochs : list nat)
    (st st' : TState) :
  epoch_loop argmax_softmax module_epoch_passing mean_item randperm s
    model_file_name model_dir indices_list epochs st = Ok st' →
  best_is_last_checkpoint model_dir model_file_name st →
  best_is_last_checkpoint model_dir model_file_name st'.
Proof.
  revert st. induction epochs as [|epoch epochs IH]; intros st; simpl.
  - by intros [= <-].
  - destruct (body _ _ _ _ _ _) as [st1|e] eqn:Hbody; simpl; [|done].
    intros Hloop Hinv. apply (IH st1 Hloop). by eapply epoch_body_best.
Qed.

Lemma epochs_run_app (evs1 evs2 : list (Event (Params := Params) (Optimizer := Optimizer))) :
  epochs_run (evs1 ++ evs2) = epochs_run evs1 ++ epochs_run evs2.
Proof.
  induction evs1 as [|e evs1 IH]; simpl; [done|].
  rewrite IH. by destruct e.
Qed.

(** The loop has no exit: a run that returns has run every epoch it was
    given, whatever the patience. *)
Lemma epoch_loop_runs_every_epoch (s : Settings) (model_file_name : string)
    (model_dir : Path) (indices_list : list string) (epochs : list nat)
    (st st' : TState) :
  epoch_loop argmax_softmax module_epoch_passing mean_item randperm s
    model_file_name model_dir indices_list epochs st = Ok st' →
  epochs_run (events st') = epochs_run (events st) ++ epochs.
Proof.
  revert st. induction epochs as [|epoch epochs IH]; intros st; simpl.
  - intros [= <-]. by rewrite app_nil_r.
  - destruct (body _ _ _ _ _ _) as [st1|e] eqn:Hbody; simpl; [|done].
    intros Hloop. rewrite (IH _ Hloop).
    apply epoch_body_spec in Hbody as (out & m & o & g & g' & _ & _ & Hst).
    cbn zeta in Hst.
    assert (epochs_run (events st1) = epochs_run (events st) ++ [epoch]) as ->.
    { destruct (PrimFloat.ltb _ _); subst st1; cbn [events];
        rewrite epochs_run_app; f_equal; by case_match. }
    by rewrite <-app_assoc.
Qed.

(** X17: when [_do_training] returns, the parameters of the model are those
    of the checkpoint file of the best epoch; and when the run wrote a
    checkpoint, the last one it wrote is this one, written in the best epoch
    with the parameters the model had at the end of that epoch. *)
Theorem training_restores_best (m : Params) (s : Settings)
    (model_file_name : string) (model_dir : Path) (indices_list : list string)
    (g : Rng) (files : gmap string Blob) (st : TState) :
  _do_training argmax_softmax module_epoch_passing mean_item Adam randperm
    m s model_file_name model_dir indices_list g files = Ok st →
  fs st !! str (joinpath model_dir
                  ("epoch_" +:+ Py.fmt_05d (best_epoch st) +:+ "_" +:+ model_file_name))
    = Some (ModelState (model st)) ∧
  ((∃ e, e ∈ events st ∧ is_checkpoint model_dir model_file_name e) →
   ∃ pre loss post,
     events st =
       pre ++ LogEpoch (best_epoch st) loss ::
              Saved (epoch_file model_dir model_file_name (best_epoch st))
                (ModelState (model st)) :: post ∧
     Forall (λ e, ¬ is_checkpoint model_dir model_file_name e) post).
Proof.
  unfold _do_training.
  destruct (epoch_loop _ _ _ _ _ _ _ _ _ _) as [st1|e] eqn:Hloop; simpl; [|done].
  apply epoch_loop_best in Hloop; [|left; repeat constructor; by intros (? & ? & [=])].
  unfold load_best, emit.
  cbn [prv_training_loss patience_counter best_epoch model optimizer rng fs events].
  fold (epoch_file model_dir model_file_name (best_epoch st1)).
  destruct (fs st1 !! _) as [[p|o]|] eqn:Hfile; [|done..].
  intros [= <-].
  cbn [prv_training_loss patience_counter best_epoch model optimizer rng fs events].
  split; [done|]. intros (e & He & Hck).
  destruct Hloop as [Hno|(pre & loss & p' & post & Hev & Hpost & Hfile')].
  - apply elem_of_app in He as [He|He].
    + by eapply Forall_forall in Hno.
    + apply list_elem_of_singleton in He as ->. by destruct Hck as (? & ? & [=]).
  - rewrite Hfile in Hfile'. injection Hfile' as <-.
    exists pre, loss, (post ++ [LogTrainingDone]).
    rewrite Hev, <-app_assoc. split; [done|].
    apply Forall_app. split; [done|].
    repeat constructor. by intros (? & ? & [=]).
Qed.

End TrainingClaims.

(** C1: with patience 2, a budget of seven epochs and the losses
    [10.0, 9.5, 9.48, 9.47, 9.47, 9.47, 9.47], the counter reaches the
    patience at the end of epoch 4 and the notice is logged, and the epochs
    5 and 6 are run all the same, each with a notice of its own. *)
Theorem stop_notice_does_not_stop :
  on_result (λ st, progress (events st)) (Scenario.run 7 2) =
  Some [inl 0; inl 1; inl 2; inl 3; inl 4; inr 2%Z; inl 5; inr 3%Z; inl 6; inr 4%Z].
Proof. reflexivity. Qed.

(** C8: three epochs whose loss is not a number, in a directory that holds
    a file [epoch_00000_model.pt] of an earlier run with the parameters 99:
    no epoch is an improvement and no checkpoint is written, the best epoch
    is still the 0 it started as, and [_do_training] returns with the
    parameters of that file, which are those of no epoch of the run (1, 2
    and 3, as the [latest] files show). *)
Theorem training_loads_stale_checkpoint :
  on_result
    (λ st, (epochs_run (events st), saves (events st), best_epoch st,
            patience_counter st, model st))
    Run.nan_run =
  Some ([0; 1; 2],
        [("outputs/models/latest_model.pt", ModelState 1);
         ("outputs/models/latest_optimizer_model.pt", OptimizerState 1);
         ("outputs/models/latest_model.pt", ModelState 2);
         ("outputs/models/latest_optimizer_model.pt", OptimizerState 2);
         ("outputs/models/latest_model.pt", ModelState 3);
         ("outputs/models/latest_optimizer_model.pt", OptimizerState 3)],
        0, 3%Z, 99).
Proof. reflexivity. Qed.

(** ** The theorems at given inputs *)

Lemma ex_decoded :
  _decode_outputs classes_argmax ex_predicted ex_ground_truth vocab ex_files
    "<eos>" false = Ok (ex_captions_pred, ex_captions_gt).
Proof. reflexivity. Qed.

(** A ground truth without the end-of-sequence token, and a prediction
    without it. *)
Lemma decode_outputs_missing_eos_witness :
  _decode_outputs classes_argmax [[0; 2; 1]] [[0; 2; 3]%Z] vocab [wav "a.wav"]
    "<eos>" false = Err ValueError ∧
  ∃ g,
    decode_tokens classes_argmax vocab "<eos>" [0; 2; 3; 1]%Z [0; 5; 6; 6]
      = Ok (["<sos>"; "bird"; "sings"; "sings"], g) ∧
    decode_loop classes_argmax vocab "<eos>"
      ([] ++ [([0; 2; 3; 1]%Z, [0; 5; 6; 6], wav "b.wav")])
      {| captions_pred := []; captions_gt := []; f_names := [] |} =
    Ok (decoded_state
          ([] ++ [{| d_key := file_key (wav "b.wav");
                     d_predicted := Py.join " " ["<sos>"; "bird"; "sings"; "sings"];
                     d_gt := Py.join " " g |}])).
Proof.
  split.
  - apply (proj1 (decode_outputs_missing_eos classes_argmax
             [[0; 2; 1]] [[0; 2; 3]%Z] vocab [wav "a.wav"] "<eos>" false
             [] [] [0; 2; 3]%Z [0; 2; 1] (wav "a.wav") []
             ["<sos>"; "a"; "dog"] ["<sos>"; "a"; "<eos>"]
             eq_refl eq_refl eq_refl eq_refl)).
    compute_done.
  - apply (proj2 (decode_outputs_missing_eos classes_argmax
             [[0; 5; 6; 6]] [[0; 2; 3; 1]%Z] vocab [wav "b.wav"] "<eos>" false
             [] [] [0; 2; 3; 1]%Z [0; 5; 6; 6] (wav "b.wav") []
             ["<sos>"; "a"; "dog"; "<eos>"] ["<sos>"; "bird"; "sings"; "sings"]
             eq_refl eq_refl eq_refl eq_refl)); compute_done.
Defined.

Lemma decode_outputs_records_witness :
  ∃ ds,
    comprehension (decode_item classes_argmax vocab "<eos>")
      (Py.zip3 ex_ground_truth ex_predicted ex_files) = Ok ds ∧
    NoDup (first_appearance (d_key <$> ds)) ∧
    length ex_captions_pred = length (first_appearance (d_key <$> ds)).
Proof.
  destruct (proj1 (decode_outputs_records classes_argmax)
              ex_predicted ex_ground_truth vocab ex_files "<eos>" false
              ex_captions_pred ex_captions_gt ex_decoded)
    as (ds & Hds & Hnd & _ & Hlen & _).
  by exists ds.
Defined.

Lemma decode_outputs_truncation_witness :
  (∃ G i, first_eos "<eos>" G i ∧
     "<sos> dog barks" = Py.join " " (take i G) ∧ "<eos>" ∉ take i G) ∧
  (∃ P p, "<sos> bird sings sings" = Py.join " " p ∧ ("<eos>" ∉ p) ∧
     (∀ i, first_eos "<eos>" P i → p = take i P)).
Proof.
  pose proof (decode_outputs_truncation classes_argmax
                ex_predicted ex_ground_truth vocab ex_files "<eos>" false
                ex_captions_pred ex_captions_gt ex_decoded) as [Hgt Hpred].
  split.
  - destruct (Hgt {[ "file_name" := "a"; "caption_1" := "<sos> a dog barks";
                      "caption_2" := "<sos> dog barks" ]} 2 "<sos> dog barks")
      as (_ & _ & _ & G & i & _ & _ & Hi & Hc & Hn); [left|reflexivity|].
    by exists G, i.
  - destruct (Hpred {[ "file_name" := "b";
                        "caption_predicted" := "<sos> bird sings sings" ]}
                "<sos> bird sings sings")
      as (_ & _ & _ & P & p & _ & _ & Hc & Hn & _ & Hi);
      [right; left|reflexivity|].
    by exists P, p.
Defined.

Lemma decode_outputs_deterministic_ordered_witness :
  ∃ ks,
    (λ r : Record_, r !! "file_name") <$> ex_captions_pred = Some <$> ks ∧
    (λ r : Record_, r !! "file_name") <$> ex_captions_gt = Some <$> ks ∧
    NoDup ks.
Proof.
  destruct (decode_outputs_deterministic_ordered classes_argmax
              ex_predicted ex_ground_truth vocab ex_files "<eos>" false
              (Ok (ex_captions_pred, ex_captions_gt))
              (Ok (ex_captions_pred, ex_captions_gt))
              (eq_sym ex_decoded) (eq_sym ex_decoded)) as [_ Hord].
  destruct (Hord ex_captions_pred ex_captions_gt eq_refl)
    as (ds & _ & Hp & Hg & Hnd & _).
  by eexists.
Defined.

Lemma decode_outputs_aligned_witness :
  length ex_captions_pred = length ex_captions_gt ∧
  ∀ i p g, ex_captions_pred !! i = Some p → ex_captions_gt !! i = Some g →
    ∃ k, p !! "file_name" = Some k ∧ g !! "file_name" = Some k.
Proof.
  exact (decode_outputs_aligned classes_argmax
           ex_predicted ex_ground_truth vocab ex_files "<eos>" false
           ex_captions_pred ex_captions_gt ex_decoded).
Defined.

Lemma state_of_Ok (r : Result (TrainState (Params := nat))) :
  on_result (λ _, ()) r = Some () → r = Ok (Scenario.state_of r).
Proof. by destruct r. Qed.

(** The fourth epoch of the scenario: no improvement. *)
Lemma improvement_test_witness :
  let st := Scenario.before_fourth_epoch in
  let st' := Scenario.state_of (Scenario.epoch 3 st) in
  Scenario.epoch 3 st = Ok st' ∧
  patience_counter st' = 1%Z ∧
  prv_training_loss st' = prv_training_loss st ∧
  best_epoch st' = 2.
Proof.
  intros st st'.
  assert (Scenario.epoch 3 st = Ok st') as Hbody by (by apply state_of_Ok).
  split; [exact Hbody|].
  destruct (proj1 (improvement_test Scenario.argmax Scenario.epoch_pass
                     Scenario.mean Scenario.adam Scenario.perm)
              _ _ _ _ _ _ _ Hbody) as (out & m & o & g & Hpass & Hif).
  vm_compute in Hpass. injection Hpass as <- _ _ _.
  exact Hif.
Defined.

(** The first epoch of the scenario: an improvement, three files written. *)
Lemma epoch_checkpoints_witness :
  let st := initial_state Scenario.adam 0 (Scenario.settings 7 2) tt ∅ in
  let st' := Scenario.state_of (Scenario.epoch 0 st) in
  Scenario.epoch 0 st = Ok st' ∧
  saves (events st') =
    [("outputs/models/epoch_00000_model.pt", ModelState 1);
     ("outputs/models/latest_model.pt", ModelState 1);
     ("outputs/models/latest_optimizer_model.pt", OptimizerState 1)].
Proof.
  intros st st'.
  assert (Scenario.epoch 0 st = Ok st') as Hbody by (by apply state_of_Ok).
  split; [exact Hbody|].
  destruct (proj1 (epoch_checkpoints Scenario.argmax Scenario.epoch_pass
                     Scenario.mean Scenario.perm)
              _ _ _ _ _ _ _ Hbody) as (out & g & Hpass & Hsaves).
  vm_compute in Hpass. injection Hpass as <- _.
  rewrite Hsaves. reflexivity.
Defined.

(** Seven epochs of the scenario: the model is back at the parameters of
    epoch 2, the last improvement, after seven passes; the checkpoint of
    epoch 2 is the last one of the log. *)
Lemma training_restores_best_witness :
  Scenario.run 7 2 = Ok Scenario.final_state ∧
  best_epoch Scenario.final_state = 2 ∧
  model Scenario.final_state = 3 ∧
  optimizer Scenario.final_state = 7 ∧
  str (joinpath Scenario.model_dir
         ("epoch_" +:+ Py.fmt_05d (best_epoch Scenario.final_state) +:+ "_" +:+
          "model.pt")) = "outputs/models/epoch_00002_model.pt" ∧
  fs Scenario.final_state !!
    str (joinpath Scenario.model_dir
           ("epoch_" +:+ Py.fmt_05d (best_epoch Scenario.final_state) +:+ "_" +:+
            "model.pt")) =
    Some (ModelState (model Scenario.final_state)) ∧
  ∃ pre loss post,
    events Scenario.final_state =
      pre ++ LogEpoch (best_epoch Scenario.final_state) loss ::
             Saved (epoch_file Scenario.model_dir "model.pt"
                      (best_epoch Scenario.final_state))
               (ModelState (model Scenario.final_state)) :: post ∧
    Forall (λ e, ¬ is_checkpoint Scenario.model_dir "model.pt" e) post.
Proof.
  assert (Scenario.run 7 2 = Ok Scenario.final_state) as Hrun
    by (by apply state_of_Ok).
  split; [exact Hrun|]. do 4 (split; [reflexivity|]).
  destruct (training_restores_best Scenario.argmax Scenario.epoch_pass
              Scenario.mean Scenario.adam Scenario.perm
              _ _ _ _ _ _ _ _ Hrun) as [Hfile Hlast].
  split; [exact Hfile|]. apply Hlast.
  exists (Saved "outputs/models/epoch_00000_model.pt" (ModelState 1)). split.
  - apply (list_elem_of_lookup_2 _ 4). reflexivity.
  - exists 0, (ModelState 1). reflexivity.
Defined.

(** * More of the orchestrator: errors, budget and bookkeeping *)

Section TrainingEdges.

Context {Tensor : Type} (argmax_softmax : Tensor → list nat).
Context {Params Optimizer Rng : Type}.
Context (module_epoch_passing :
           Params → Optimizer → Rng →
           EpochOutput (Tensor := Tensor) * Params * Optimizer * Rng)
        (mean_item : Tensor → float)
        (Adam : Params → float → Optimizer)
        (randperm : nat → Rng → list nat * Rng).

#[local] Abbreviation TState' :=
  (TrainState (Params := Params) (Optimizer := Optimizer) (Rng := Rng)).
#[local] Abbreviation body' :=
  (epoch_body argmax_softmax module_epoch_passing mean_item randperm).
#[local] Abbreviation train :=
  (_do_training argmax_softmax module_epoch_passing mean_item Adam randperm).

(** An exception of the decoding of an epoch ends the epoch. *)
Lemma epoch_body_decoding_Err (s : Settings) (model_file_name : string)
    (model_dir : Path) (indices_list : list string) (epoch : nat) (st : TState')
    (e : PyError) :
  (∀ out m o g,
     module_epoch_passing (model st) (optimizer st) (rng st) = (out, m, o, g) →
     periodic_decoding argmax_softmax randperm s indices_list epoch out g = Err e) →
  body' s model_file_name model_dir indices_list epoch st = Err e.
Proof.
  intros Hdec. unfold epoch_body.
  destruct (module_epoch_passing _ _ _) as [[[out m] o] g] eqn:Hpass. cbn.
  by rewrite (Hdec out m o g eq_refl).
Qed.

Lemma range_pos (n : Z) : (0 < n)%Z → range n = 0 :: seq 1 (Z.to_nat n - 1).
Proof.
  intros Hn. unfold range.
  destruct (Z.to_nat n) as [|k] eqn:Hk; [lia|].
  simpl. by rewrite Nat.sub_0_r.
Qed.

Lemma range_nonpos (n : Z) : (n ≤ 0)%Z → range n = [].
Proof. intros Hn. unfold range. by replace (Z.to_nat n) with 0 by lia. Qed.

(** X1: a decoding period of zero is a division by zero in the first epoch. *)
Theorem training_period_zero (m : Params) (s : Settings)
    (model_file_name : string) (model_dir : Path) (indices_list : list string)
    (g : Rng) (files : gmap string Blob) :
  text_output_every_nb_epochs s = 0%Z → (0 < nb_epochs s)%Z →
  train m s model_file_name model_dir indices_list g files = Err ZeroDivisionError.
Proof.
  intros Hzero Hpos. unfold _do_training. rewrite range_pos by done.
  cbn [epoch_loop].
  rewrite (epoch_body_decoding_Err _ _ _ _ _ _ ZeroDivisionError); [done|].
  intros out m' o g' _. unfold periodic_decoding. by rewrite Hzero.
Qed.

(** X2: when the decoding of an epoch is due and the sample is empty, the call
    of the decoder has no positional argument: a [TypeError]. *)
Theorem periodic_decoding_empty_sample (s : Settings)
    (indices_list : list string) (epoch : nat)
    (out : EpochOutput (Tensor := Tensor)) (g : Rng) :
  text_output_every_nb_epochs s ≠ 0%Z →
  ((Z.of_nat epoch + 1) `mod` text_output_every_nb_epochs s = 0)%Z →
  Py.slice_to (nb_examples_to_sample s)
    (randperm (length (output_y_hat out)) g).1 = [] →
  periodic_decoding argmax_softmax randperm s indices_list epoch out g
    = Err TypeError.
Proof.
  intros Hne Hdue Hempty. unfold periodic_decoding.
  rewrite (proj2 (Z.eqb_neq _ _) Hne), Hdue. cbn.
  destruct (randperm _ g) as [perm g']. cbn in Hempty. by rewrite Hempty.
Qed.

(** X3: with no epoch to run, all that happens is the load of the file
    [epoch_00000_<name>]: what the directory holds decides the outcome. *)
Theorem training_no_epoch (m : Params) (s : Settings)
    (model_file_name : string) (model_dir : Path) (indices_list : list string)
    (g : Rng) (files : gmap string Blob) :
  (nb_epochs s ≤ 0)%Z →
  match files !! epoch_file model_dir model_file_name 0 with
  | None =>
      train m s model_file_name model_dir indices_list g files
        = Err FileNotFoundError
  | Some (OptimizerState _) =>
      train m s model_file_name model_dir indices_list g files
        = Err RuntimeError
  | Some (ModelState p) =>
      ∃ st, train m s model_file_name model_dir indices_list g files = Ok st ∧
        model st = p ∧ fs st = files ∧ saves (events st) = [] ∧
        epochs_run (events st) = []
  end.
Proof.
  intros Hn. unfold _do_training. rewrite range_nonpos by done.
  cbn [epoch_loop mbind Result_bind]. unfold load_best, emit, initial_state.
  cbn [prv_training_loss patience_counter best_epoch model optimizer rng fs events].
  destruct (files !! _) as [[p|o]|]; [|done..].
  by eexists.
Qed.

(** X4: the loop never leaves early: a run that returns has run every epoch of
    the budget, in order, whatever the patience. *)
Theorem training_runs_whole_budget (m : Params) (s : Settings)
    (model_file_name : string) (model_dir : Path) (indices_list : list string)
    (g : Rng) (files : gmap string Blob) (st : TState') :
  train m s model_file_name model_dir indices_list g files = Ok st →
  epochs_run (events st) = seq 0 (Z.to_nat (nb_epochs s)).
Proof.
  unfold _do_training.
  destruct (epoch_loop _ _ _ _ _ _ _ _ _ _) as [st1|e] eqn:Hloop; simpl; [|done].
  apply (epoch_loop_runs_every_epoch argmax_softmax) in Hloop.
  unfold load_best, emit.
  cbn [prv_training_loss patience_counter best_epoch model optimizer rng fs events].
  destruct (fs st1 !! _) as [[p|o]|]; [|done..].
  intros [= <-]. cbn [events].
  assert (∀ evs : list (Event (Params := Params) (Optimizer := Optimizer)),
            epochs_run (evs ++ [LogTrainingDone]) = epochs_run evs) as Hdone.
  { intros evs. induction evs as [|e evs IH]; simpl; [done|].
    rewrite IH. by destruct e. }
  by rewrite Hdone, Hloop.
Qed.

End TrainingEdges.

(** ** File names of the checkpoints *)

Lemma string_app_inj_r (x y t : string) : x +:+ t = y +:+ t → x = y.
Proof.
  revert y. induction x as [|c x IH]; intros [|d y] H; [done|..].
  - apply (f_equal String.length) in H.
    rewrite !string_length_app in H. simpl in H. lia.
  - apply (f_equal String.length) in H.
    rewrite !string_length_app in H. simpl in H. lia.
  - injection H as -> H. f_equal. by apply IH.
Qed.

Lemma pretty_N_go_length (x : N) (s : string) :
  (String.length s ≤ String.length (pretty_N_go x s))%nat.
Proof.
  revert s. induction (N.lt_wf_0 x) as [x _ IH]; intros s.
  assert (x = 0 ∨ 0 < x)%N as [->|Hx] by lia; [by rewrite pretty_N_go_0|].
  rewrite pretty_N_go_step by done.
  etrans; [|by eapply IH, N.div_lt]. simpl. lia.
Qed.

(** The first digit of a positive number is not zero. *)
Lemma pretty_N_go_head (x : N) (s t : string) :
  (0 < x)%N → pretty_N_go x s ≠ String "0" t.
Proof.
  revert s. induction (N.lt_wf_0 x) as [x _ IH]; intros s Hx.
  rewrite pretty_N_go_step by done.
  assert (0 < x < 10 ∨ 10 ≤ x)%N as [Hd|Hd] by lia.
  - replace (x `div` 10)%N with 0%N by (symmetry; apply N.div_small; lia).
    rewrite pretty_N_go_0, N.mod_small by lia.
    assert (x = 1 ∨ x = 2 ∨ x = 3 ∨ x = 4 ∨ x = 5 ∨ x = 6
            ∨ x = 7 ∨ x = 8 ∨ x = 9)%N by lia; naive_solver.
  - apply IH; [apply N.div_lt; lia|].
    apply N.div_str_pos. lia.
Qed.

Lemma pretty_nat_nonempty (n : nat) : pretty n ≠ "".
Proof.
  unfold pretty, pretty_nat, pretty, pretty_N. case_decide as Hn; [done|].
  intros Hempty. pose proof (pretty_N_go_length (N.of_nat n `div` 10)
    (String (pretty_N_char (N.of_nat n `mod` 10)) "")) as Hlen.
  rewrite <-pretty_N_go_step, Hempty in Hlen by lia. simpl in Hlen. lia.
Qed.

Lemma pretty_nat_head_zero (n : nat) (t : string) :
  pretty n = String "0" t → pretty n = "0".
Proof.
  unfold pretty, pretty_nat, pretty, pretty_N. case_decide as Hn; [done|].
  intros Hhead. by apply pretty_N_go_head in Hhead; [|lia].
Qed.

Lemma zeros_S (k : nat) :
  String.concat "" (replicate (S k) "0")
  = String "0" (String.concat "" (replicate k "0")).
Proof. by destruct k. Qed.

Lemma zeros_app_inj (k k' : nat) (a b : string) :
  (∀ t, a = String "0" t → a = "0") → (∀ t, b = String "0" t → b = "0") →
  a ≠ "" → b ≠ "" →
  String.concat "" (replicate k "0") +:+ a
  = String.concat "" (replicate k' "0") +:+ b →
  a = b.
Proof.
  intros Ha Hb Hane Hbne. revert k'.
  induction k as [|k IH]; intros [|k']; rewrite ?zeros_S.
  - done.
  - change (a = String "0" (String.concat "" (replicate k' "0") +:+ b) → a = b).
    intros H. pose proof (Ha _ H) as H0. rewrite H0 in H. injection H as H.
    destruct (String.concat "" (replicate k' "0")); [|done].
    by destruct Hbne.
  - change (String "0" (String.concat "" (replicate k "0") +:+ a) = b → a = b).
    intros H. symmetry in H. pose proof (Hb _ H) as H0. rewrite H0 in H.
    injection H as H.
    destruct (String.concat "" (replicate k "0")); [|done].
    by destruct Hane.
  - change (String "0" (String.concat "" (replicate k "0") +:+ a)
            = String "0" (String.concat "" (replicate k' "0") +:+ b) → a = b).
    intros [= H]. by eapply IH.
Qed.

(** Two epochs have the same five-digit number only when they are the same. *)
Lemma fmt_05d_inj (a b : nat) : Py.fmt_05d a = Py.fmt_05d b → a = b.
Proof.
  unfold Py.fmt_05d. intros H. apply (inj pretty).
  apply (zeros_app_inj _ _ _ _ (pretty_nat_head_zero a) (pretty_nat_head_zero b)
           (pretty_nat_nonempty a) (pretty_nat_nonempty b) H).
Qed.

Lemma epoch_file_inj (model_dir : Path) (model_file_name : string) (a b : nat) :
  epoch_file model_dir model_file_name a = epoch_file model_dir model_file_name b →
  a = b.
Proof.
  unfold epoch_file. intros H%str_joinpath_inj.
  apply (inj (String.app "epoch_")) in H.
  rewrite <-!string_app_assoc in H. apply string_app_inj_r in H.
  apply string_app_inj_r in H. by apply fmt_05d_inj.
Qed.

Lemma latest_files_differ (model_dir : Path) (model_file_name : string) :
  latest_file model_dir model_file_name ""
  ≠ latest_file model_dir model_file_name "_optimizer".
Proof.
  unfold latest_file. intros H%str_joinpath_inj.
  apply (inj (String.app "latest")) in H.
  change ("_" +:+ model_file_name = "_" +:+ ("optimizer_" +:+ model_file_name)) in H.
  apply (inj (String.app "_")) in H.
  apply (f_equal String.length) in H. rewrite string_length_app in H.
  simpl in H. lia.
Qed.

(** A loss that is not a number is never an improvement. *)
Lemma ltb_sub_nan (thr prv : float) :
  PrimFloat.ltb thr (PrimFloat.sub prv nan) = false.
Proof.
  rewrite ltb_spec, sub_spec.
  replace (Prim2SF nan) with S754_nan by reflexivity.
  unfold SF64sub, SFsub.
  destruct (Prim2SF prv) as [[]|[]| |[] ? ?]; unfold SFltb, SFcompare;
    by destruct (Prim2SF thr) as [[]|[]| |[] ? ?].
Qed.

Section TrainingBookkeeping.

Context {Tensor : Type} (argmax_softmax : Tensor → list nat).
Context {Params Optimizer Rng : Type}.
Context (module_epoch_passing :
           Params → Optimizer → Rng →
           EpochOutput (Tensor := Tensor) * Params * Optimizer * Rng)
        (mean_item : Tensor → float)
        (Adam : Params → float → Optimizer)
        (randperm : nat → Rng → list nat * Rng).

#[local] Abbreviation TState'' :=
  (TrainState (Params := Params) (Optimizer := Optimizer) (Rng := Rng)).
#[local] Abbreviation loop :=
  (epoch_loop argmax_softmax module_epoch_passing mean_item randperm).
#[local] Abbreviation train' :=
  (_do_training argmax_softmax module_epoch_passing mean_item Adam randperm).
#[local] Abbreviation spec :=
  (epoch_body_spec argmax_softmax module_epoch_passing mean_item randperm).

(** What the last line of [_do_training] keeps of the state of the loop. *)
Lemma do_training_Ok (m : Params) (s : Settings) (model_file_name : string)
    (model_dir : Path) (indices_list : list string) (g : Rng)
    (files : gmap string Blob) (st : TState'') :
  train' m s model_file_name model_dir indices_list g files = Ok st →
  ∃ st1,
    loop s model_file_name model_dir indices_list (range (nb_epochs s))
      (initial_state Adam m s g files) = Ok st1 ∧
    fs st1 !! epoch_file model_dir model_file_name (best_epoch st1)
      = Some (ModelState (model st)) ∧
    prv_training_loss st = prv_training_loss st1 ∧
    patience_counter st = patience_counter st1 ∧
    best_epoch st = best_epoch st1 ∧
    optimizer st = optimizer st1 ∧
    fs st = fs st1 ∧
    events st = events st1 ++ [LogTrainingDone].
Proof.
  unfold _do_training.
  destruct (epoch_loop _ _ _ _ _ _ _ _ _ _) as [st1|e] eqn:Hloop; simpl; [|done].
  unfold load_best, emit.
  cbn [prv_training_loss patience_counter best_epoch model optimizer rng fs events].
  destruct (fs st1 !! _) as [[p|o]|] eqn:Hfile; [|done..].
  intros [= <-]. by exists st1.
Qed.

Lemma epoch_loop_counter (s : Settings) (model_file_name : string)
    (model_dir : Path) (indices_list : list string) (a k : nat)
    (st st' : TState'') :
  loop s model_file_name model_dir indices_list (seq a k) st = Ok st' →
  (best_epoch st = 0 ∧ patience_counter st = Z.of_nat a) ∨
  (best_epoch st < a ∧
   patience_counter st = (Z.of_nat a - 1 - Z.of_nat (best_epoch st))%Z) →
  (best_epoch st' = 0 ∧ patience_counter st' = Z.of_nat (a + k)) ∨
  (best_epoch st' < a + k ∧
   patience_counter st' = (Z.of_nat (a + k) - 1 - Z.of_nat (best_epoch st'))%Z).
Proof.
  revert a st. induction k as [|k IH]; intros a st; simpl.
  - intros [= <-]. by rewrite Nat.add_0_r.
  - destruct (epoch_body _ _ _ _ _ _ _ _ a st) as [st1|e] eqn:Hbody;
      simpl; [|done].
    intros Hloop Hinv. replace (a + S k) with (S a + k) by lia.
    apply (IH _ _ Hloop).
    apply spec in Hbody as (out & m & o & g & g' & _ & _ & Hst).
    cbn zeta in Hst.
    destruct (PrimFloat.ltb _ _); subst st1; cbn [best_epoch patience_counter].
    + right. lia.
    + destruct Hinv as [[? ?]|[? ?]]; [left|right]; lia.
Qed.

(** X5: when [_do_training] returns after [n] epochs, the patience counter is
    the number of epochs after the best epoch, [n - 1 - best_epoch]; or it
    is [n], with a best epoch of 0, when no epoch was an improvement. *)
Theorem patience_counts_epochs_since_best (m : Params) (s : Settings)
    (model_file_name : string) (model_dir : Path) (indices_list : list string)
    (g : Rng) (files : gmap string Blob) (st : TState'') :
  train' m s model_file_name model_dir indices_list g files = Ok st →
  let n := Z.to_nat (nb_epochs s) in
  (best_epoch st = 0 ∧ patience_counter st = Z.of_nat n) ∨
  (best_epoch st < n ∧
   patience_counter st = (Z.of_nat n - 1 - Z.of_nat (best_epoch st))%Z).
Proof.
  intros (st1 & Hloop & _ & _ & -> & -> & _)%do_training_Ok. cbn zeta.
  apply (epoch_loop_counter _ _ _ _ 0 _ _ _ Hloop). by left.
Qed.

(** X6: an epoch whose mean loss is not a number is no improvement, whatever the
    threshold: the counter goes up by one, the previous loss and the best
    epoch stay, and only the two [latest] files are written. *)
Theorem nan_loss_is_no_improvement (s : Settings) (model_file_name : string)
    (model_dir : Path) (indices_list : list string) (epoch : nat)
    (st st' : TState'') (out : EpochOutput) (m : Params) (o : Optimizer) (g : Rng) :
  epoch_body argmax_softmax module_epoch_passing mean_item randperm
    s model_file_name model_dir indices_list epoch st = Ok st' →
  module_epoch_passing (model st) (optimizer st) (rng st) = (out, m, o, g) →
  mean_item (objective_output out) = nan →
  patience_counter st' = (patience_counter st + 1)%Z ∧
  prv_training_loss st' = prv_training_loss st ∧
  best_epoch st' = best_epoch st ∧
  saves (events st') =
    saves (events st) ++
    [(latest_file model_dir model_file_name "", ModelState m);
     (latest_file model_dir model_file_name "_optimizer", OptimizerState o)].
Proof.
  intros (out' & m' & o' & g0 & g' & Hpass & _ & Hst)%spec Hpass' Hnan.
  rewrite Hpass' in Hpass. injection Hpass as <- <- <- <-.
  cbn zeta in Hst. rewrite Hnan, ltb_sub_nan in Hst. subst st'.
  cbn [prv_training_loss patience_counter best_epoch events].
  do 3 (split; [done|]).
  rewrite saves_app. f_equal. by case_match.
Qed.

(** The checkpoints written so far are in their files, through the loop. *)
Lemma epoch_loop_checkpoints (s : Settings) (model_file_name : string)
    (model_dir : Path) (indices_list : list string) (a k : nat)
    (st st' : TState'') :
  loop s model_file_name model_dir indices_list (seq a k) st = Ok st' →
  (∀ e b, (epoch_file model_dir model_file_name e, b) ∈ saves (events st) →
     e < a ∧ fs st !! epoch_file model_dir model_file_name e = Some b) →
  ∀ e b, (epoch_file model_dir model_file_name e, b) ∈ saves (events st') →
    e < a + k ∧ fs st' !! epoch_file model_dir model_file_name e = Some b.
Proof.
  revert a st. induction k as [|k IH]; intros a st; simpl.
  - intros [= <-] Hinv e b He. rewrite Nat.add_0_r. by apply Hinv.
  - destruct (epoch_body _ _ _ _ _ _ _ _ a st) as [st1|e] eqn:Hbody;
      simpl; [|done].
    intros Hloop Hinv. replace (a + S k) with (S a + k) by lia.
    apply (IH _ _ Hloop). clear IH Hloop.
    apply spec in Hbody as (out & m & o & g & g' & _ & _ & Hst).
    cbn zeta in Hst. intros e b.
    assert (∀ c : Z,
              saves (if (patience s <=? c)%Z
                     then [LogStop (Params := Params) (Optimizer := Optimizer) c]
                     else []) = []) as Hstop
      by (intros c; destruct (patience s <=? c)%Z; reflexivity).
    destruct (PrimFloat.ltb _ _); subst st1; cbn [events fs];
      rewrite saves_app; cbn [saves app]; rewrite ?saves_app, Hstop;
      cbn [saves app]; rewrite elem_of_app, !elem_of_cons, elem_of_nil.
    + intros [Hold|[[= He <-]|[[= He _]|[[= He _]|[]]]]].
      * destruct (Hinv _ _ Hold) as [Hlt Hfile]. split; [lia|].
        rewrite !lookup_insert_ne; [done|..].
        -- intros Heq%epoch_file_inj. lia.
        -- apply latest_not_epoch_file.
        -- apply latest_not_epoch_file.
      * apply epoch_file_inj in He as ->. split; [lia|].
        rewrite !lookup_insert_ne by apply latest_not_epoch_file.
        apply lookup_insert_eq.
      * symmetry in He. by apply latest_not_epoch_file in He.
      * symmetry in He. by apply latest_not_epoch_file in He.
    + intros [Hold|[[= He _]|[[= He _]|[]]]].
      * destruct (Hinv _ _ Hold) as [Hlt Hfile]. split; [lia|].
        by rewrite !lookup_insert_ne by apply latest_not_epoch_file.
      * symmetry in He. by apply latest_not_epoch_file in He.
      * symmetry in He. by apply latest_not_epoch_file in He.
Qed.

(** X7: every per-epoch checkpoint a run has written is still in its file when
    the run returns: no later write goes to the file of another epoch. *)
Theorem checkpoints_are_kept (m : Params) (s : Settings)
    (model_file_name : string) (model_dir : Path) (indices_list : list string)
    (g : Rng) (files : gmap string Blob) (st : TState'') (e : nat) (b : Blob) :
  train' m s model_file_name model_dir indices_list g files = Ok st →
  (epoch_file model_dir model_file_name e, b) ∈ saves (events st) →
  e < Z.to_nat (nb_epochs s) ∧
  fs st !! epoch_file model_dir model_file_name e = Some b.
Proof.
  intros (st1 & Hloop & _ & _ & _ & _ & _ & -> & ->)%do_training_Ok.
  rewrite saves_app. cbn [saves]. rewrite app_nil_r.
  apply (epoch_loop_checkpoints _ _ _ _ 0 _ _ _ Hloop).
  intros e' b' He'. by apply elem_of_nil in He'.
Qed.

(** The two [latest] files after a loop of at least one epoch. *)
Lemma epoch_loop_latest (s : Settings) (model_file_name : string)
    (model_dir : Path) (indices_list : list string) (epochs : list nat)
    (st st' : TState'') :
  epochs ≠ [] →
  loop s model_file_name model_dir indices_list epochs st = Ok st' →
  fs st' !! latest_file model_dir model_file_name "" = Some (ModelState (model st')) ∧
  fs st' !! latest_file model_dir model_file_name "_optimizer"
    = Some (OptimizerState (optimizer st')) ∧
  ∃ pre,
    saves (events st') =
      pre ++ [(latest_file model_dir model_file_name "", ModelState (model st'));
              (latest_file model_dir model_file_name "_optimizer",
               OptimizerState (optimizer st'))].
Proof.
  revert st. induction epochs as [|epoch epochs IH]; intros st Hne; [done|].
  simpl.
  destruct (epoch_body _ _ _ _ _ _ _ _ epoch st) as [st1|e] eqn:Hbody;
    simpl; [|done].
  destruct epochs as [|epoch' epochs]; [|by apply IH].
  simpl. intros [= <-]. clear IH.
  apply spec in Hbody as (out & m & o & g & g' & _ & _ & Hst).
  cbn zeta in Hst.
  assert (∀ c : Z,
            saves (if (patience s <=? c)%Z
                   then [LogStop (Params := Params) (Optimizer := Optimizer) c]
                   else []) = []) as Hstop
      by (intros c; destruct (patience s <=? c)%Z; reflexivity).
  destruct (PrimFloat.ltb _ _); subst st1; cbn [events fs model optimizer];
    (split; [rewrite lookup_insert_ne by (apply not_eq_sym, latest_files_differ);
             apply lookup_insert_eq|]);
    (split; [apply lookup_insert_eq|]);
    rewrite saves_app; cbn [saves app]; rewrite ?saves_app, Hstop;
    cbn [saves app].
  - exists (saves (events st) ++
            [(epoch_file model_dir model_file_name epoch, ModelState m)]).
    by rewrite <-app_assoc.
  - by exists (saves (events st)).
Qed.

(** The loop over one more epoch is the loop, then the body. *)
Lemma epoch_loop_snoc (s : Settings) (model_file_name : string)
    (model_dir : Path) (indices_list : list string) (epochs : list nat)
    (epoch : nat) (st st' : TState'') :
  loop s model_file_name model_dir indices_list (epochs ++ [epoch]) st = Ok st' →
  ∃ st1,
    loop s model_file_name model_dir indices_list epochs st = Ok st1 ∧
    epoch_body argmax_softmax module_epoch_passing mean_item randperm
      s model_file_name model_dir indices_list epoch st1 = Ok st'.
Proof.
  revert st. induction epochs as [|e epochs IH]; intros st; simpl.
  - destruct (epoch_body _ _ _ _ _ _ _ _ epoch st) as [st1|err] eqn:Hbody;
      simpl; [|done].
    intros [= <-]. by exists st.
  - destruct (epoch_body _ _ _ _ _ _ _ _ e st) as [st1|err]; simpl; [|done].
    apply IH.
Qed.

(** X8: after a run of at least one epoch, the two [latest] files hold the state
    of the last epoch: the optimizer as it is on return, and the parameters
    that the pass of the last epoch gave, from the state the epochs before
    it left, whatever parameters were loaded back afterwards; they are the
    last two writes of the run. *)
Theorem latest_files_hold_last_epoch (m : Params) (s : Settings)
    (model_file_name : string) (model_dir : Path) (indices_list : list string)
    (g : Rng) (files : gmap string Blob) (st : TState'') :
  train' m s model_file_name model_dir indices_list g files = Ok st →
  (0 < nb_epochs s)%Z →
  ∃ st_prev out m_last g_last pre,
    epoch_loop argmax_softmax module_epoch_passing mean_item randperm
      s model_file_name model_dir indices_list
      (seq 0 (Z.to_nat (nb_epochs s) - 1)) (initial_state Adam m s g files)
      = Ok st_prev ∧
    module_epoch_passing (model st_prev) (optimizer st_prev) (rng st_prev)
      = (out, m_last, optimizer st, g_last) ∧
    fs st !! latest_file model_dir model_file_name "" = Some (ModelState m_last) ∧
    fs st !! latest_file model_dir model_file_name "_optimizer"
      = Some (OptimizerState (optimizer st)) ∧
    saves (events st) =
      pre ++ [(latest_file model_dir model_file_name "", ModelState m_last);
              (latest_file model_dir model_file_name "_optimizer",
               OptimizerState (optimizer st))].
Proof.
  intros (st1 & Hloop & _ & _ & _ & _ & -> & -> & ->)%do_training_Ok Hpos.
  pose proof Hloop as Hlatest.
  apply epoch_loop_latest in Hlatest as (Hm & Ho & pre & Hsaves);
    [|by rewrite range_pos].
  unfold range in Hloop.
  replace (Z.to_nat (nb_epochs s)) with (S (Z.to_nat (nb_epochs s) - 1))%nat
    in Hloop at 1 by lia.
  rewrite seq_S in Hloop. cbn [Nat.add] in Hloop.
  apply epoch_loop_snoc in Hloop as (st_prev & Hprev & Hbody).
  apply spec in Hbody as (out & m_last & o & g0 & g' & Hpass & _ & Hst).
  cbn zeta in Hst.
  assert (model st1 = m_last ∧ optimizer st1 = o) as [Hm1 Ho1]
    by (destruct (PrimFloat.ltb _ _); by subst st1).
  subst m_last o. exists st_prev, out, (model st1), g0, pre.
  split; [exact Hprev|]. split; [exact Hpass|].
  split; [exact Hm|]. split; [exact Ho|].
  rewrite saves_app, Hsaves. cbn [saves]. by rewrite app_nil_r.
Qed.

End TrainingBookkeeping.

(** * More of the decoder: the shortest list, the table, the references *)

Lemma zip3_length {A B C} (a : list A) (b : list B) (c : list C) :
  length (Py.zip3 a b c) = (length a `min` length b) `min` length c.
Proof.
  revert b c. induction a as [|x a IH]; intros [|y b] [|z c]; simpl; try done.
  by rewrite IH.
Qed.

Lemma zip3_take {A B C} (n : nat) (a : list A) (b : list B) (c : list C) :
  ((length a `min` length b) `min` length c ≤ n)%nat →
  Py.zip3 (take n a) (take n b) (take n c) = Py.zip3 a b c.
Proof.
  revert a b c. induction n as [|n IH]; intros [|x a] [|y b] [|z c]; simpl;
    try done; try lia.
  intros Hn. rewrite IH; [done|lia].
Qed.

Lemma getitem_Err {A} (l : list A) (i : Z) (e : PyError) :
  Py.getitem l i = Err e → e = IndexError.
Proof.
  unfold Py.getitem. repeat case_match; by intros [= <-].
Qed.

Lemma getitem_out_of_range {A} (l : list A) (i : Z) :
  (i < - Z.of_nat (length l) ∨ Z.of_nat (length l) ≤ i)%Z →
  Py.getitem l i = Err IndexError.
Proof.
  intros Hi. unfold Py.getitem.
  destruct (i <? 0)%Z eqn:Hneg.
  - apply Z.ltb_lt in Hneg.
    replace (Z.of_nat (length l) + i <? 0)%Z with true; [done|].
    symmetry. apply Z.ltb_lt. lia.
  - apply Z.ltb_ge in Hneg.
    replace (Z.of_nat (length l) <=? i)%Z with true; [by rewrite orb_true_r|].
    symmetry. apply Z.leb_le. lia.
Qed.

Lemma comprehension_Err_kind {A B} (f : A → Result B) (l : list A)
    (e0 e : PyError) :
  (∀ x e', f x = Err e' → e' = e0) →
  comprehension f l = Err e → e = e0.
Proof.
  intros Hf. induction l as [|x l IH]; simpl; [done|].
  destruct (f x) as [y|e'] eqn:Hx; simpl.
  - destruct (comprehension f l) as [ys|e'']; simpl; [done|].
    intros [= <-]. by apply IH.
  - intros [= <-]. by eapply Hf.
Qed.

Lemma comprehension_Exists_Err {A B} (f : A → Result B) (l : list A)
    (e0 : PyError) (P : A → Prop) :
  (∀ x e', f x = Err e' → e' = e0) →
  (∀ x, P x → f x = Err e0) →
  Exists P l → comprehension f l = Err e0.
Proof.
  intros Hkind HP. induction 1 as [x l Hx|x l Hl IH]; simpl.
  - by rewrite (HP x Hx).
  - destruct (f x) as [y|e'] eqn:Hfx; simpl.
    + by rewrite IH.
    + by rewrite (Hkind _ _ Hfx).
Qed.

Lemma sum_indicator (k : string) (l : list string) :
  NoDup l → k ∈ l →
  sum_list_with (λ k', if decide (k' = k) then 1 else 0) l = 1.
Proof.
  induction 1 as [|x l Hx Hnd IH]; [by intros ?%elem_of_nil|].
  simpl. intros [->|Hk]%elem_of_cons.
  - rewrite decide_True by done. f_equal.
    clear IH Hnd. induction l as [|y l IH]; [done|].
    simpl. apply not_elem_of_cons in Hx as [Hxy Hx].
    rewrite decide_False by done. by apply IH.
  - rewrite decide_False by (intros ->; done). by apply IH.
Qed.

Lemma sum_list_with_ext_in {A} (f g : A → nat) (l : list A) :
  (∀ x, x ∈ l → f x = g x) → sum_list_with f l = sum_list_with g l.
Proof.
  induction l as [|x l IH]; intros Hfg; simpl; [done|].
  rewrite Hfg by left. f_equal. apply IH. intros y Hy. apply Hfg. by right.
Qed.

Lemma sum_list_with_add {A} (f g : A → nat) (l : list A) :
  sum_list_with (λ x, f x + g x) l = sum_list_with f l + sum_list_with g l.
Proof. induction l as [|x l IH]; simpl; [done|]. rewrite IH. lia. Qed.

(** Every decoded item is an occurrence of one key, and of one only. *)
Lemma sum_occurrences (ds : list Decoded) :
  sum_list_with (λ k, length (occurrences k ds)) (first_appearance (d_key <$> ds))
  = length ds.
Proof.
  induction ds as [|d ds IH] using rev_ind; [done|].
  rewrite fmap_app. change (d_key <$> [d]) with [d_key d].
  rewrite first_appearance_snoc, length_app. simpl.
  assert (∀ l, sum_list_with (λ k, length (occurrences k (ds ++ [d]))) l =
               sum_list_with (λ k, length (occurrences k ds)) l +
               sum_list_with (λ k, if decide (k = d_key d) then 1 else 0) l)
    as Hsplit.
  { intros l. rewrite <-sum_list_with_add. apply sum_list_with_ext_in.
    intros k _. rewrite occurrences_snoc, length_app.
    destruct (decide (d_key d = k)) as [<-|Hne].
    - by rewrite decide_True.
    - by rewrite decide_False by congruence. }
  case_bool_decide as Hseen.
  - rewrite Hsplit, IH. f_equal. apply sum_indicator.
    + apply NoDup_first_appearance.
    + by apply elem_of_first_appearance.
  - rewrite sum_list_with_app, Hsplit, IH. simpl.
    rewrite occurrences_snoc, decide_True, occurrences_unseen by done.
    assert (sum_list_with (λ k, if decide (k = d_key d) then 1 else 0)
              (first_appearance (d_key <$> ds)) = 0) as ->; [|simpl; lia].
    clear IH Hsplit.
    assert (d_key d ∉ first_appearance (d_key <$> ds)) as Hnot
      by (by rewrite elem_of_first_appearance).
    induction (first_appearance (d_key <$> ds)) as [|k l IHl]; [done|].
    simpl. apply not_elem_of_cons in Hnot as [Hne Hnot].
    rewrite decide_False by done. by apply IHl.
Qed.

Lemma comprehension_length {A B} (f : A → Result B) (l : list A) (ys : list B) :
  comprehension f l = Ok ys → length ys = length l.
Proof. intros H%comprehension_Ok. symmetry. by eapply Forall2_length. Qed.

Section DecoderEdges.

Context {Tensor : Type} (argmax_softmax : Tensor → list nat).

(** X9: the loop stops with the shortest of the three lists: what lies beyond
    it plays no part, and with an empty list nothing is decoded and two
    empty lists are returned. *)
Theorem decode_outputs_shortest_list (predicted_outputs : list Tensor)
    (ground_truth_outputs : list (list Z)) (indices_object : list string)
    (file_names : list Path) (eos_token : string) (print_to_console : bool) :
  let n := (length ground_truth_outputs `min` length predicted_outputs)
             `min` length file_names in
  _decode_outputs argmax_softmax predicted_outputs ground_truth_outputs
    indices_object file_names eos_token print_to_console =
  _decode_outputs argmax_softmax (take n predicted_outputs)
    (take n ground_truth_outputs) indices_object (take n file_names)
    eos_token print_to_console ∧
  (n = 0 →
   _decode_outputs argmax_softmax predicted_outputs ground_truth_outputs
     indices_object file_names eos_token print_to_console = Ok ([], [])).
Proof.
  cbn zeta. split.
  - unfold _decode_outputs. by rewrite zip3_take.
  - intros Hn. unfold _decode_outputs.
    destruct (Py.zip3 _ _ _) as [|item items] eqn:Hzip; [done|].
    apply (f_equal length) in Hzip. rewrite zip3_length in Hzip.
    simpl in Hzip. lia.
Qed.

(** X10: a class or an index outside the table of tokens is an [IndexError], and
    it comes before the search of the end-of-sequence token: the call fails
    with it whether or not the ground truth of the item has that token. *)
Theorem decode_outputs_index_error (predicted_outputs : list Tensor)
    (ground_truth_outputs : list (list Z)) (indices_object : list string)
    (file_names : list Path) (eos_token : string) (print_to_console : bool)
    (pre post : list (list Z * Tensor * Path)) (gt_words : list Z)
    (b_predictions : Tensor) (f_name : Path) (ds : list Decoded) :
  Py.zip3 ground_truth_outputs predicted_outputs file_names =
    pre ++ (gt_words, b_predictions, f_name) :: post →
  comprehension (decode_item argmax_softmax indices_object eos_token) pre = Ok ds →
  Exists (λ c, (length indices_object ≤ c)%nat) (argmax_softmax b_predictions) ∨
  Exists (λ i, (i < - Z.of_nat (length indices_object) ∨
                Z.of_nat (length indices_object) ≤ i)%Z) gt_words →
  _decode_outputs argmax_softmax predicted_outputs ground_truth_outputs
    indices_object file_names eos_token print_to_console = Err IndexError.
Proof.
  intros Hzip Hpre Hbad.
  rewrite decode_outputs_decoded, Hzip, comprehension_app, Hpre. simpl.
  unfold decode_tokens.
  destruct (comprehension _ (argmax_softmax b_predictions)) as [P|e] eqn:HP.
  - simpl. destruct Hbad as [Hbad|Hbad].
    + assert (comprehension (λ i : nat, Py.getitem indices_object (Z.of_nat i))
                (argmax_softmax b_predictions) = Err IndexError) as HP'.
      { eapply comprehension_Exists_Err; [| |exact Hbad].
        - intros x e'. apply getitem_Err.
        - intros x Hx. cbn beta in Hx. apply getitem_out_of_range. lia. }
      congruence.
    + assert (comprehension (Py.getitem indices_object) gt_words
                = Err IndexError) as ->; [|done].
      eapply comprehension_Exists_Err; [| |exact Hbad].
      * intros x e'. apply getitem_Err.
      * intros x Hx. cbn beta in Hx. by apply getitem_out_of_range.
  - simpl. apply comprehension_Err_kind with (e0 := IndexError) in HP as ->; [done|].
    intros x e'. apply getitem_Err.
Qed.

(** X11: no reference caption is lost or counted twice: over the ground-truth
    records, the caption fields are as many as the items decoded, that is
    as many as the shortest input list has entries. *)
Theorem decode_outputs_keeps_every_reference (predicted_outputs : list Tensor)
    (ground_truth_outputs : list (list Z)) (indices_object : list string)
    (file_names : list Path) (eos_token : string) (print_to_console : bool)
    (cp cg : list Record_) :
  _decode_outputs argmax_softmax predicted_outputs ground_truth_outputs
    indices_object file_names eos_token print_to_console = Ok (cp, cg) →
  sum_list_with caption_count cg =
    (length ground_truth_outputs `min` length predicted_outputs)
      `min` length file_names ∧
  (length cp ≤ sum_list_with caption_count cg)%nat.
Proof.
  rewrite decode_outputs_decoded.
  destruct (comprehension _ _) as [ds|e] eqn:Hds; simpl; [|done].
  intros [= <- <-]. apply comprehension_length in Hds.
  rewrite zip3_length in Hds. rewrite <-Hds.
  assert (sum_list_with caption_count
            ((λ k, gt_record k (references_of k ds)) <$>
             first_appearance (d_key <$> ds)) = length ds) as Hsum.
  { rewrite <-(sum_occurrences ds).
    generalize (first_appearance (d_key <$> ds)). intros ks.
    induction ks as [|k ks IH]; [done|].
    rewrite fmap_cons. simpl. rewrite IH. f_equal.
    unfold caption_count. rewrite count_gt_record.
    unfold references_of. by rewrite length_fmap. }
  split; [done|]. rewrite Hsum, length_fmap.
  rewrite <-(length_fmap d_key ds).
  generalize (d_key <$> ds). intros l.
  induction l as [|x l IH]; simpl; [done|].
  trans (S (length (first_appearance l))); [|lia].
  apply le_n_S. apply length_filter.
Qed.

End DecoderEdges.

(** * The token table, the evaluation and [method] *)

(** ** Paths of several segments *)

Lemma Path_one_segment (part : string) :
  posix.Path_ [part] = posix.parse_segment part.
Proof.
  unfold posix.Path_, posix.join_parsed_parts. simpl.
  destruct (posix.parse_segment part) as [r ps]. simpl. by destruct r.
Qed.

(** [Path(a, b, c)] is [Path(a, b).joinpath(c)]. *)
Lemma Path_joinpath (segments : list string) (other : string) :
  posix.Path_ (segments ++ [other])
  = posix.joinpath_any (posix.Path_ segments) other.
Proof.
  unfold posix.joinpath_any. rewrite Path_one_segment.
  unfold posix.Path_. by rewrite fold_left_app.
Qed.

(** For a name of one component, [joinpath] is the simple one. *)
Lemma joinpath_any_one_component (p : Path) (n : string) :
  posix.parse_segment n = mkPath "" [n] →
  posix.joinpath_any p n = joinpath p n.
Proof.
  intros Hn. unfold posix.joinpath_any. rewrite Path_one_segment, Hn. done.
Qed.

(** ** The number of classes and the table of tokens *)

Lemma nb_output_classes_load (pickles : gmap string (list string))
    (load_pickle_file : Path → Result (list string)) (d : DataSettings) :
  (∀ p, load_pickle_file p = pickle_load pickles p) →
  _get_nb_output_classes pickles d =
  (indices_list ← _load_indices_file load_pickle_file d;
   Ok (length indices_list)) ∧
  _load_indices_file load_pickle_file d =
  pickle_load pickles
    (posix.Path_ [root_dir (data_files d); dataset_dir (data_files d);
                  list_file_name d]).
Proof.
  intros Hload. unfold _get_nb_output_classes, _load_indices_file.
  rewrite Hload.
  rewrite <-(Path_joinpath [root_dir (data_files d); dataset_dir (data_files d)]).
  by cbn [app].
Qed.

(** X12: the model is built for as many classes as the table of tokens has
    entries: the two functions read the same file, the list of words when
    the output field starts with [words] and the list of characters
    otherwise, and fail together when it is missing. *)
Theorem nb_output_classes_is_table_length
    (pickles : gmap string (list string))
    (load_pickle_file : Path → Result (list string)) (d : DataSettings) :
  (∀ p, load_pickle_file p = pickle_load pickles p) →
  _get_nb_output_classes pickles d =
  (indices_list ← _load_indices_file load_pickle_file d;
   Ok (length indices_list)) ∧
  (_load_indices_file load_pickle_file d = Err FileNotFoundError ↔
   pickles !! str (posix.Path_ [root_dir (data_files d);
                               dataset_dir (data_files d);
                               if Py.startswith (output_field_name d) "words"
                               then words_list_file_name (data_files d)
                               else characters_list_file_name (data_files d)])
     = None).
Proof.
  intros Hload.
  destruct (nb_output_classes_load pickles load_pickle_file d Hload) as [Hnb Hidx].
  split; [done|]. rewrite Hidx.
  unfold pickle_load, list_file_name.
  by destruct (pickles !! _).
Qed.

(** ** The evaluation and [method] *)

Lemma decoded_state_lengths (ds : list Decoded) :
  length (captions_pred (decoded_state ds)) = length (captions_gt (decoded_state ds)).
Proof. unfold decoded_state. cbn. by rewrite !length_fmap. Qed.

Lemma decoded_state_caption_sum (ds : list Decoded) :
  sum_list_with caption_count (captions_gt (decoded_state ds)) = length ds.
Proof.
  unfold decoded_state. cbn [captions_gt].
  rewrite <-(sum_occurrences ds).
  generalize (first_appearance (d_key <$> ds)). intros ks.
  induction ks as [|k ks IH]; [done|].
  rewrite fmap_cons. simpl. rewrite IH. f_equal.
  unfold caption_count. rewrite count_gt_record.
  unfold references_of. by rewrite length_fmap.
Qed.

Lemma log_metrics_Ok (metrics : list (string * gmap string float))
    (lines : list EvalEvent) :
  log_metrics metrics = Ok lines →
  Forall2 (λ mv ev, ∃ score, mv.2 !! "score" = Some score ∧
                             ev = LogMetric mv.1 score) metrics lines.
Proof.
  revert lines. induction metrics as [|[metric values] metrics IH];
    intros lines; simpl.
  - intros [= <-]. constructor.
  - destruct (values !! "score") as [score|] eqn:Hscore; [|done].
    destruct (log_metrics metrics) as [evs|e]; simpl; [|done].
    intros [= <-]. constructor; [by exists score|by apply IH].
Qed.

Section EvaluationFacts.

Context {Tensor : Type} (argmax_softmax : Tensor → list nat).
Context {Params Rng : Type}.
Context (evaluation_pass :
           Params → Rng → EpochOutput (Tensor := Tensor) * Params * Rng)
        (iterdir : Path → Result (list Path))
        (evaluate_metrics :
           list Record_ → list Record_ →
           Result (list (string * gmap string float))).

(** X13: an evaluation that returns has paired the outputs of the pass with the
    entries of the directory [clotho_dataset_eva], in the order the system
    lists them and as far as the shortest list goes; the scorer got two
    lists of the same length, with as many references as there were pairs;
    and the log ends with a line per metric, in the order of the scorer,
    with its score. *)
Theorem evaluation_scores_directory_pairs (net : Params) (s : Settings)
    (d : DataSettings) (indices_list : list string) (g : Rng)
    (r : Evaluated (Params := Params) (Rng := Rng)) :
  _do_evaluation argmax_softmax evaluation_pass iterdir evaluate_metrics
    net s d indices_list g = Ok r →
  ∃ out file_names cp cg metrics,
    evaluation_pass net g = (out, eval_model r, eval_rng r) ∧
    iterdir (posix.Path_ [root_dir (data_files d);
                          baseline_data_dir (data_files d);
                          "clotho_dataset_eva"]) = Ok file_names ∧
    _decode_outputs argmax_softmax (output_y_hat out) (output_y out)
      indices_list file_names (eos_token s) false = Ok (cp, cg) ∧
    evaluate_metrics cp cg = Ok metrics ∧
    length cp = length cg ∧
    sum_list_with caption_count cg =
      (length (output_y out) `min` length (output_y_hat out))
        `min` length file_names ∧
    Forall2 (λ mv ev, ∃ score, mv.2 !! "score" = Some score ∧
                               ev = LogMetric mv.1 score)
      metrics (drop 4 (eval_events r)).
Proof.
  unfold _do_evaluation.
  destruct (evaluation_pass net g) as [[out net'] g'].
  destruct (iterdir _) as [file_names|e] eqn:Hdir; simpl; [|done].
  destruct (_decode_outputs _ _ _ _ _ _ _) as [[cp cg]|e] eqn:Hdec; simpl; [|done].
  destruct (evaluate_metrics cp cg) as [metrics|e] eqn:Hmet; simpl; [|done].
  destruct (log_metrics metrics) as [lines|e] eqn:Hlines; simpl; [|done].
  intros [= <-]. exists out, file_names, cp, cg, metrics. cbn.
  do 4 (split; [done|]).
  apply decode_outputs_Ok in Hdec as (ds & Hds & -> & ->).
  split; [apply decoded_state_lengths|].
  split; [|by apply log_metrics_Ok].
  rewrite decoded_state_caption_sum, <-zip3_length.
  by eapply comprehension_length.
Qed.

End EvaluationFacts.

Section MethodFacts.

Context {Tensor : Type} (argmax_softmax : Tensor → list nat).
Context {Params Optimizer Rng : Type}.
Context (module_epoch_passing :
           Params → Optimizer → Rng →
           EpochOutput (Tensor := Tensor) * Params * Optimizer * Rng)
        (mean_item : Tensor → float)
        (Adam : Params → float → Optimizer)
        (randperm : nat → Rng → list nat * Rng)
        (evaluation_pass :
           Params → Rng → EpochOutput (Tensor := Tensor) * Params * Rng)
        (iterdir : Path → Result (list Path))
        (evaluate_metrics :
           list Record_ → list Record_ →
           Result (list (string * gmap string float)))
        (load_pickle_file : Path → Result (list string))
        (mkdir : Path → Result ())
        (get_model : nat → Rng → Params * Rng).

#[local] Abbreviation method' :=
  (method argmax_softmax module_epoch_passing mean_item Adam randperm
     evaluation_pass iterdir evaluate_metrics load_pickle_file mkdir get_model).

(** X14: with both steps of the workflow off, [method] makes the directory of
    the models, loads the table of tokens and builds the model for as many
    classes as the table has entries; it writes no file. *)
Theorem method_without_workflow (s : MethodSettings)
    (pickles : gmap string (list string)) (files : gmap string Blob) (g : Rng)
    (indices_list : list string) :
  (∀ p, load_pickle_file p = pickle_load pickles p) →
  do_training s = false → do_evaluation s = false →
  mkdir (posix.Path_ [model_root_dir s; models_dir s]) = Ok () →
  _load_indices_file load_pickle_file (data s) = Ok indices_list →
  method' s pickles files g =
  Ok (mkMethodResult (get_model (length indices_list) g).1 files None None).
Proof.
  intros Hload Htrain Heval Hmkdir Hidx. unfold method.
  rewrite Hmkdir, Hidx, Htrain, Heval. simpl.
  rewrite (proj1 (nb_output_classes_load pickles load_pickle_file (data s) Hload)),
    Hidx. simpl.
  by destruct (get_model _ g).
Qed.

(** X15: with both steps on, a [method] that returns has trained the model
    built for the table of tokens, and has evaluated the parameters of the
    checkpoint of the best epoch, which training loaded back: not those of
    the last epoch. *)
Theorem method_evaluates_best_checkpoint (s : MethodSettings)
    (pickles : gmap string (list string)) (files : gmap string Blob) (g : Rng)
    (r : MethodResult) :
  (∀ p, load_pickle_file p = pickle_load pickles p) →
  do_training s = true → do_evaluation s = true →
  method' s pickles files g = Ok r →
  ∃ indices_list st ev out,
    _load_indices_file load_pickle_file (data s) = Ok indices_list ∧
    _do_training argmax_softmax module_epoch_passing mean_item Adam randperm
      (get_model (length indices_list) g).1 (training s) (output_file_name s)
      (posix.Path_ [model_root_dir s; models_dir s]) indices_list
      (get_model (length indices_list) g).2 files = Ok st ∧
    trained r = Some st ∧ evaluated r = Some ev ∧
    fs st !! epoch_file (posix.Path_ [model_root_dir s; models_dir s])
               (output_file_name s) (best_epoch st)
      = Some (ModelState (model st)) ∧
    evaluation_pass (model st) (rng st) = (out, eval_model ev, eval_rng ev) ∧
    result_model r = eval_model ev ∧ result_files r = fs st.
Proof.
  intros Hload Htrain Heval. unfold method.
  destruct (mkdir _) as [[]|e]; simpl; [|done].
  destruct (_load_indices_file _ _) as [indices_list|e] eqn:Hidx; simpl; [|done].
  rewrite (proj1 (nb_output_classes_load pickles load_pickle_file (data s) Hload)),
    Hidx, Htrain, Heval. simpl.
  destruct (get_model _ g) as [net g0] eqn:Hnet. simpl.
  destruct (_do_training _ _ _ _ _ _ _ _ _ _ _ _) as [st|e] eqn:Hst; simpl; [|done].
  destruct (_do_evaluation _ _ _ _ _ _ _ _ _) as [ev|e] eqn:Hev; simpl; [|done].
  intros [= <-]. exists indices_list, st, ev. rewrite Hnet. cbn [fst snd].
  pose proof Hst as (st1 & _ & Hfile & _ & _ & Hbest & _ & Hfs & _)%do_training_Ok.
  unfold _do_evaluation in Hev.
  destruct (evaluation_pass (model st) (rng st)) as [[out net'] g'] eqn:Hpass.
  exists out. simpl.
  do 4 (split; [done|]).
  split; [by rewrite Hbest, Hfs|].
  destruct (iterdir _) as [fns|e]; simpl in Hev; [|done].
  destruct (_decode_outputs _ _ _ _ _ _ _) as [[cp cg]|e]; simpl in Hev; [|done].
  destruct (evaluate_metrics cp cg) as [ms|e]; simpl in Hev; [|done].
  destruct (log_metrics ms) as [lines|e]; simpl in Hev; [|done].
  by injection Hev as <-.
Qed.

(** X16: with the training off and the evaluation on, [method] evaluates the
    model as [get_model] built it, for as many classes as the table of
    tokens has entries: no checkpoint is read and no file is written. *)
Theorem method_evaluation_only (s : MethodSettings)
    (pickles : gmap string (list string)) (files : gmap string Blob) (g : Rng)
    (r : MethodResult) :
  (∀ p, load_pickle_file p = pickle_load pickles p) →
  do_training s = false → do_evaluation s = true →
  method' s pickles files g = Ok r →
  ∃ indices_list ev out,
    _load_indices_file load_pickle_file (data s) = Ok indices_list ∧
    trained r = None ∧ evaluated r = Some ev ∧
    evaluation_pass (get_model (length indices_list) g).1
      (get_model (length indices_list) g).2
      = (out, eval_model ev, eval_rng ev) ∧
    result_model r = eval_model ev ∧ result_files r = files.
Proof.
  intros Hload Htrain Heval. unfold method.
  destruct (mkdir _) as [[]|e]; simpl; [|done].
  destruct (_load_indices_file _ _) as [indices_list|e] eqn:Hidx; simpl; [|done].
  rewrite (proj1 (nb_output_classes_load pickles load_pickle_file (data s) Hload)),
    Hidx, Htrain, Heval. simpl.
  destruct (get_model _ g) as [net g0] eqn:Hnet. simpl.
  destruct (_do_evaluation _ _ _ _ _ _ _ _ _) as [ev|e] eqn:Hev; simpl; [|done].
  intros [= <-]. exists indices_list, ev. rewrite Hnet. cbn [fst snd].
  unfold _do_evaluation in Hev.
  destruct (evaluation_pass net g0) as [[out net'] g'] eqn:Hpass.
  exists out. simpl.
  do 3 (split; [done|]).
  destruct (iterdir _) as [fns|e]; simpl in Hev; [|done].
  destruct (_decode_outputs _ _ _ _ _ _ _) as [[cp cg]|e]; simpl in Hev; [|done].
  destruct (evaluate_metrics cp cg) as [ms|e]; simpl in Hev; [|done].
  destruct (log_metrics ms) as [lines|e]; simpl in Hev; [|done].
  by injection Hev as <-.
Qed.

End MethodFacts.

Lemma Ok_inj {A} (a b : A) : Ok a = Ok b → a = b.
Proof. congruence. Qed.

Lemma value_of_Ok {A} (d : A) (r : Result A) :
  on_result (λ _, ()) r = Some () → r = Ok (value_of d r).
Proof. by destruct r. Qed.

Lemma training_period_zero_witness :
  _do_training Scenario.argmax Scenario.epoch_pass Scenario.mean Scenario.adam
    Scenario.perm 0 (mkSettings 7 2 0.01%float 0 1 "<eos>" 0.0001%float)
    "model.pt" Scenario.model_dir vocab tt ∅ = Err ZeroDivisionError.
Proof.
  apply (training_period_zero Scenario.argmax Scenario.epoch_pass Scenario.mean
           Scenario.adam Scenario.perm); [reflexivity|simpl; lia].
Defined.

Lemma periodic_decoding_empty_sample_witness :
  periodic_decoding Scenario.argmax Scenario.perm
    (mkSettings 7 2 0.01%float 2 0 "<eos>" 0.0001%float) vocab 1
    (mkEpochOutput (Scenario.Loss 1%float) [Scenario.Scores [0; 2; 1]]
       [[0; 2; 1]%Z] [wav "a.wav"]) tt = Err TypeError.
Proof.
  apply periodic_decoding_empty_sample; [simpl; lia|reflexivity|reflexivity].
Defined.

Lemma training_no_epoch_witness :
  Scenario.run 0 2 = Err FileNotFoundError ∧
  ∃ st,
    _do_training Scenario.argmax Scenario.epoch_pass Scenario.mean Scenario.adam
      Scenario.perm 0 (Scenario.settings (-1) 2) "model.pt" Scenario.model_dir
      vocab tt {[ "outputs/models/epoch_00000_model.pt" := ModelState 5 ]}
      = Ok st ∧
    model st = 5 ∧
    fs st = {[ "outputs/models/epoch_00000_model.pt" := ModelState 5 ]} ∧
    saves (events st) = [] ∧ epochs_run (events st) = [].
Proof.
  split.
  - exact (training_no_epoch Scenario.argmax Scenario.epoch_pass Scenario.mean
             Scenario.adam Scenario.perm 0 (Scenario.settings 0 2) "model.pt"
             Scenario.model_dir vocab tt ∅ ltac:(simpl; lia)).
  - exact (training_no_epoch Scenario.argmax Scenario.epoch_pass Scenario.mean
             Scenario.adam Scenario.perm 0 (Scenario.settings (-1) 2) "model.pt"
             Scenario.model_dir vocab tt
             {[ "outputs/models/epoch_00000_model.pt" := ModelState 5 ]}
             ltac:(simpl; lia)).
Defined.

Lemma scenario_run : Scenario.run 7 2 = Ok Scenario.final_state.
Proof. by apply state_of_Ok. Qed.

Lemma scenario_saves :
  saves (events Scenario.final_state) =
  [("outputs/models/epoch_00000_model.pt", ModelState 1);
   ("outputs/models/latest_model.pt", ModelState 1);
   ("outputs/models/latest_optimizer_model.pt", OptimizerState 1);
   ("outputs/models/epoch_00001_model.pt", ModelState 2);
   ("outputs/models/latest_model.pt", ModelState 2);
   ("outputs/models/latest_optimizer_model.pt", OptimizerState 2);
   ("outputs/models/epoch_00002_model.pt", ModelState 3);
   ("outputs/models/latest_model.pt", ModelState 3);
   ("outputs/models/latest_optimizer_model.pt", OptimizerState 3);
   ("outputs/models/latest_model.pt", ModelState 4);
   ("outputs/models/latest_optimizer_model.pt", OptimizerState 4);
   ("outputs/models/latest_model.pt", ModelState 5);
   ("outputs/models/latest_optimizer_model.pt", OptimizerState 5);
   ("outputs/models/latest_model.pt", ModelState 6);
   ("outputs/models/latest_optimizer_model.pt", OptimizerState 6);
   ("outputs/models/latest_model.pt", ModelState 7);
   ("outputs/models/latest_optimizer_model.pt", OptimizerState 7)].
Proof. reflexivity. Qed.

Lemma training_runs_whole_budget_witness :
  epochs_run (events Scenario.final_state) = [0; 1; 2; 3; 4; 5; 6].
Proof.
  exact (training_runs_whole_budget Scenario.argmax Scenario.epoch_pass
           Scenario.mean Scenario.adam Scenario.perm _ _ _ _ _ _ _ _
           scenario_run).
Defined.

Lemma patience_counts_epochs_since_best_witness :
  (best_epoch Scenario.final_state = 0 ∧
   patience_counter Scenario.final_state = 7%Z) ∨
  (best_epoch Scenario.final_state < 7 ∧
   patience_counter Scenario.final_state =
     (7 - 1 - Z.of_nat (best_epoch Scenario.final_state))%Z).
Proof.
  exact (patience_counts_epochs_since_best Scenario.argmax Scenario.epoch_pass
           Scenario.mean Scenario.adam Scenario.perm _ _ _ _ _ _ _ _
           scenario_run).
Defined.

Lemma nan_loss_is_no_improvement_witness :
  let st := initial_state Scenario.adam 0 (Scenario.settings 7 2) tt ∅ in
  let st' := Scenario.state_of Run.nan_epoch in
  Run.nan_epoch = Ok st' ∧
  patience_counter st' = (patience_counter st + 1)%Z ∧
  prv_training_loss st' = prv_training_loss st ∧
  best_epoch st' = best_epoch st ∧
  saves (events st') =
    saves (events st) ++
    [(latest_file Scenario.model_dir "model.pt" "", ModelState 1);
     (latest_file Scenario.model_dir "model.pt" "_optimizer", OptimizerState 1)].
Proof.
  intros st st'.
  assert (Run.nan_epoch = Ok st') as Hbody by (by apply state_of_Ok).
  split; [exact Hbody|].
  exact (nan_loss_is_no_improvement Scenario.argmax Run.nan_pass Scenario.mean
           Scenario.perm _ _ _ _ _ _ _ _ _ _ _ Hbody eq_refl eq_refl).
Defined.

Lemma checkpoints_are_kept_witness :
  1 < Z.to_nat 7 ∧
  fs Scenario.final_state !! epoch_file Scenario.model_dir "model.pt" 1
    = Some (ModelState 2).
Proof.
  apply (checkpoints_are_kept Scenario.argmax Scenario.epoch_pass
           Scenario.mean Scenario.adam Scenario.perm _ (Scenario.settings 7 2)
           _ _ _ _ _ _ _ _ scenario_run).
  rewrite scenario_saves. do 3 right. left.
Defined.

Lemma latest_files_hold_last_epoch_witness :
  ∃ st_prev out m_last g_last pre,
    epoch_loop Scenario.argmax Scenario.epoch_pass Scenario.mean Scenario.perm
      (Scenario.settings 7 2) "model.pt" Scenario.model_dir vocab
      (seq 0 (Z.to_nat (nb_epochs (Scenario.settings 7 2)) - 1))
      (initial_state Scenario.adam 0 (Scenario.settings 7 2) tt ∅)
      = Ok st_prev ∧
    Scenario.epoch_pass (model st_prev) (optimizer st_prev) (rng st_prev)
      = (out, m_last, optimizer Scenario.final_state, g_last) ∧
    fs Scenario.final_state !! latest_file Scenario.model_dir "model.pt" ""
      = Some (ModelState m_last) ∧
    fs Scenario.final_state !! latest_file Scenario.model_dir "model.pt" "_optimizer"
      = Some (OptimizerState (optimizer Scenario.final_state)) ∧
    saves (events Scenario.final_state) =
      pre ++ [(latest_file Scenario.model_dir "model.pt" "", ModelState m_last);
              (latest_file Scenario.model_dir "model.pt" "_optimizer",
               OptimizerState (optimizer Scenario.final_state))].
Proof.
  apply (latest_files_hold_last_epoch Scenario.argmax Scenario.epoch_pass
           Scenario.mean Scenario.adam Scenario.perm _ (Scenario.settings 7 2)
           _ _ _ _ _ _ scenario_run).
  simpl. lia.
Defined.

Lemma decode_outputs_index_error_witness :
  _decode_outputs classes_argmax [[0; 9]] [[0; 2]%Z] vocab [wav "a.wav"]
    "<eos>" false = Err IndexError.
Proof.
  apply (decode_outputs_index_error classes_argmax [[0; 9]] [[0; 2]%Z] vocab
           [wav "a.wav"] "<eos>" false [] [] [0; 2]%Z [0; 9] (wav "a.wav") []
           eq_refl eq_refl).
  left. apply Exists_cons_tl, Exists_cons_hd. simpl. lia.
Defined.

Lemma decode_outputs_keeps_every_reference_witness :
  sum_list_with caption_count ex_captions_gt =
    (length ex_ground_truth `min` length ex_predicted) `min` length ex_files ∧
  (length ex_captions_pred ≤ sum_list_with caption_count ex_captions_gt)%nat.
Proof.
  exact (decode_outputs_keeps_every_reference classes_argmax _ _ _ _ _ _ _ _
           ex_decoded).
Defined.

Lemma nb_output_classes_is_table_length_witness :
  _get_nb_output_classes Run.pickles Run.data_settings =
  (indices_list ← _load_indices_file (pickle_load Run.pickles) Run.data_settings;
   Ok (length indices_list)) ∧
  (_load_indices_file (pickle_load Run.pickles) Run.data_settings
     = Err FileNotFoundError ↔
   Run.pickles !! "data/clotho/words_list.p" = None).
Proof.
  exact (nb_output_classes_is_table_length Run.pickles (pickle_load Run.pickles)
           Run.data_settings (λ p, eq_refl)).
Defined.

Lemma evaluation_scores_directory_pairs_witness :
  ∃ out file_names cp cg metrics,
    Run.evaluation_pass 0 tt = (out, 0, tt) ∧
    Run.iterdir (mkPath "" ["data"; "data_splits"; "clotho_dataset_eva"])
      = Ok file_names ∧
    _decode_outputs Scenario.argmax (output_y_hat out) (output_y out)
      vocab file_names "<eos>" false = Ok (cp, cg) ∧
    Run.evaluate_metrics cp cg = Ok metrics ∧
    length cp = length cg ∧
    sum_list_with caption_count cg =
      (length (output_y out) `min` length (output_y_hat out))
        `min` length file_names ∧
    Forall2 (λ mv ev, ∃ score, mv.2 !! "score" = Some score ∧
                               ev = LogMetric mv.1 score)
      metrics
      [LogMetric "bleu_1" 0.5%float; LogMetric "cider" 1.25%float].
Proof.
  assert (Run.evaluate = Ok (value_of (mkEvaluated 0 tt []) Run.evaluate))
    as Heval by (by apply value_of_Ok).
  exact (evaluation_scores_directory_pairs Scenario.argmax Run.evaluation_pass
           Run.iterdir Run.evaluate_metrics _ _ _ _ _ _ Heval).
Defined.

Lemma method_without_workflow_witness :
  Run.run false false = Ok (mkMethodResult 0 ∅ None None).
Proof.
  exact (method_without_workflow Scenario.argmax Scenario.epoch_pass
           Scenario.mean Scenario.adam Scenario.perm Run.evaluation_pass
           Run.iterdir Run.evaluate_metrics (pickle_load Run.pickles) Run.mkdir
           Run.get_model (Run.settings false false) Run.pickles ∅ tt vocab
           (λ p, eq_refl) eq_refl eq_refl eq_refl eq_refl).
Defined.

Lemma method_evaluates_best_checkpoint_witness :
  ∃ r st ev,
    Run.run true true = Ok r ∧
    trained r = Some st ∧ evaluated r = Some ev ∧
    best_epoch st = 2 ∧ model st = 3 ∧ optimizer st = 7 ∧
    result_model r = eval_model ev ∧ result_model r = 3.
Proof.
  assert (Run.run true true =
          Ok (value_of (mkMethodResult 0 ∅ None None) (Run.run true true)))
    as Hrun by (by apply value_of_Ok).
  destruct (method_evaluates_best_checkpoint Scenario.argmax Scenario.epoch_pass
              Scenario.mean Scenario.adam Scenario.perm Run.evaluation_pass
              Run.iterdir Run.evaluate_metrics (pickle_load Run.pickles)
              Run.mkdir Run.get_model (Run.settings true true) Run.pickles ∅ tt
              _ (λ p, eq_refl) eq_refl eq_refl Hrun)
    as (idx & st & ev & out & Hidx & Hst & Htrained & Hev & Hfile & Hpass & Hm & Hf).
  eexists _, st, ev. split; [exact Hrun|].
  assert (st = Scenario.final_state) as ->.
  { change (Ok vocab = Ok idx) in Hidx. injection Hidx as <-.
    change (Scenario.run 7 2 = Ok st) in Hst. rewrite scenario_run in Hst.
    symmetry. exact (Ok_inj _ _ Hst). }
  split; [exact Htrained|]. split; [exact Hev|].
  split; [reflexivity|]. split; [reflexivity|]. split; [reflexivity|].
  split; [exact Hm|reflexivity].
Defined.

Lemma method_evaluation_only_witness :
  ∃ r ev,
    Run.run false true = Ok r ∧
    trained r = None ∧ evaluated r = Some ev ∧
    result_model r = eval_model ev ∧ result_model r = 0 ∧ result_files r = ∅.
Proof.
  assert (Run.run false true =
          Ok (value_of (mkMethodResult 0 ∅ None None) (Run.run false true)))
    as Hrun by (by apply value_of_Ok).
  destruct (method_evaluation_only Scenario.argmax Scenario.epoch_pass
              Scenario.mean Scenario.adam Scenario.perm Run.evaluation_pass
              Run.iterdir Run.evaluate_metrics (pickle_load Run.pickles)
              Run.mkdir Run.get_model (Run.settings false true) Run.pickles ∅ tt
              _ (λ p, eq_refl) eq_refl eq_refl Hrun)
    as (idx & ev & out & Hidx & Htrained & Hev & Hpass & Hm & Hf).
  eexists _, ev. split; [exact Hrun|].
  split; [exact Htrained|]. split; [exact Hev|]. split; [exact Hm|].
  split; [reflexivity|exact Hf].
Defined.

Lemma decode_outputs_shortest_list_witness :
  _decode_outputs classes_argmax ex_predicted [] vocab ex_files "<eos>" false
    = Ok ([], []).
Proof.
  exact (proj2 (decode_outputs_shortest_list classes_argmax ex_predicted []
                  vocab ex_files "<eos>" false) eq_refl).
Defined.
